(** * LearnStackHub: tutorial content records and the AdSense slot

    A verification development for the two kinds of code of the
    repository: the tutorial data modules (object literals, one per
    lesson) and the [AdSense] React component, whose two effects, status
    check, timers and render function are embedded as an executable
    transition system. *)

From stdpp Require Import gmap strings list fin_maps.
From Stdlib Require Import ZArith Lia.

Local Open Scope string_scope.
Local Open Scope Z_scope.

Set Warnings "-register-all".

(** ** JavaScript values of the data modules *)

(** The object literals of [src/data] hold quoted strings, template
    literals, arrays and nested objects.  A quoted string is kept verbatim.
    A template literal (the markdown body, the sample program, the starter
    code) is kept by its first non-blank line and the number of lines of
    the string it evaluates to (a backslash at the end of a source line
    joins it to the next); none of them has an interpolation, so each one
    evaluates to a string. *)
Inductive JsValue : Type :=
| VStr (s : string)
| VText (heading : string) (lines : nat)
| VArr (items : list JsValue)
| VObj (props : list (string * JsValue)).

(** [typeof v], with arrays told apart as [Array.isArray] does. *)
Inductive JsType : Type := TString | TArray | TObject.

Definition typeof (v : JsValue) : JsType :=
  match v with
  | VStr _ | VText _ _ => TString
  | VArr _ => TArray
  | VObj _ => TObject
  end.

#[global] Instance JsType_eq_dec : EqDecision JsType.
Proof. solve_decision. Defined.

(** Truthiness, as [&&], [||] and [if] test it: the empty string is the
    only falsy value of this fragment (a template literal here has at
    least one line of text). *)
Definition truthy (v : JsValue) : bool :=
  match v with
  | VStr s => negb (String.eqb s "")
  | _ => true
  end.

(** Property read [o.k]: the last binding of [k] in the literal wins, a
    missing property (or a read on a non-object) is [undefined]. *)
Fixpoint assoc_last (k : string) (ps : list (string * JsValue)) : option JsValue :=
  match ps with
  | [] => None
  | (k', v) :: rest =>
      match assoc_last k rest with
      | Some v' => Some v'
      | None => if String.eqb k k' then Some v else None
      end
  end.

Definition get (k : string) (o : JsValue) : option JsValue :=
  match o with
  | VObj ps => assoc_last k ps
  | _ => None
  end.

Definition has_field (k : string) (o : JsValue) : bool :=
  match get k o with Some _ => true | None => false end.

Definition field_is (t : JsType) (k : string) (o : JsValue) : bool :=
  match get k o with
  | Some v => bool_decide (typeof v = t)
  | None => false
  end.

Definition own_keys (o : JsValue) : list string :=
  match o with
  | VObj ps => ps.*1
  | _ => []
  end.

(** The record shape the specification gives every lesson: [id], [title],
    [description], [content] (a markdown string), [code] (a string) and
    [practiceQuestions]. *)
Definition content_record_shape (o : JsValue) : bool :=
  bool_decide (typeof o = TObject)
  && has_field "id" o && has_field "title" o && has_field "description" o
  && field_is TString "content" o && field_is TString "code" o
  && has_field "practiceQuestions" o.

(** What the literals of the two courses have: the four fields all lessons
    share, the two more of a Spring lesson, and the two a Maven lesson has
    in their place. *)
Definition lesson_shape (o : JsValue) : bool :=
  bool_decide (typeof o = TObject)
  && field_is TString "id" o && field_is TString "title" o
  && field_is TString "description" o && field_is TString "content" o.

Definition spring_shape (o : JsValue) : bool :=
  field_is TString "code" o && field_is TArray "practiceQuestions" o.

Definition maven_shape (o : JsValue) : bool :=
  field_is TString "courseTitle" o && field_is TString "sectionTitle" o
  && negb (has_field "code" o) && negb (has_field "practiceQuestions" o).

(** ** The tutorial data modules *)

Module Content.

(** [mavenCommonErrors], src/src/data/maven/MavenCommonErrors.js line 1; default export. *)
Definition mavenCommonErrors : JsValue :=
  VObj
    [ ("id", VStr "maven-common-errors");
      ("title", VStr "Common Errors & Fixes");
      ("description", VStr "Learn how to fix common Maven errors");
      ("courseTitle", VStr "Maven");
      ("sectionTitle", VStr "Maven Basics");
      ("content", VText "# Common Errors & Fixes" 461) ].

(** [mavenCreateProject], src/src/data/maven/MavenCreateProject.js line 1; default export. *)
Definition mavenCreateProject : JsValue :=
  VObj
    [ ("id", VStr "maven-create-project");
      ("title", VStr "Create Maven Project");
      ("description", VStr "Learn different ways to create a new Maven project");
      ("courseTitle", VStr "Maven");
      ("sectionTitle", VStr "Maven Basics");
      ("content", VText "# Create Maven Project" 303) ].

(** [mavenDependencyManagement], src/src/data/maven/MavenDependencyManagement.js line 1; default export. *)
Definition mavenDependencyManagement : JsValue :=
  VObj
    [ ("id", VStr "maven-dependency-management");
      ("title", VStr "Dependency Management");
      ("description", VStr "Learn how to manage project dependencies effectively");
      ("courseTitle", VStr "Maven");
      ("sectionTitle", VStr "Maven Basics");
      ("content", VText "# Dependency Management" 435) ].

(** [mavenInstallation], src/src/data/maven/MavenDependencyManagement.js line 446; default export. *)
Definition mavenInstallation : JsValue :=
  VObj
    [ ("id", VStr "maven-installation");
      ("title", VStr "Install Maven");
      ("description", VStr "Step-by-step guide to install Maven on Windows, Mac, and Linux");
      ("courseTitle", VStr "Maven");
      ("sectionTitle", VStr "Maven Basics");
      ("content", VText "# Install Maven" 218) ].

(** [mavenIntroduction], src/src/data/maven/MavenIntroduction.js line 1; default export. *)
Definition mavenIntroduction : JsValue :=
  VObj
    [ ("id", VStr "maven-introduction");
      ("title", VStr "What is Maven?");
      ("description", VStr "Learn what Maven is and why it's essential for Java development");
      ("courseTitle", VStr "Maven");
      ("sectionTitle", VStr "Maven Basics");
      ("content", VText "# What is Maven?" 159) ].

(** [mavenMultiModule], src/src/data/maven/MavenMultiModule.js line 1; default export. *)
Definition mavenMultiModule : JsValue :=
  VObj
    [ ("id", VStr "maven-multi-module");
      ("title", VStr "Multi-Module Project");
      ("description", VStr "Learn how to create and manage multi-module Maven projects");
      ("courseTitle", VStr "Maven");
      ("sectionTitle", VStr "Maven Basics");
      ("content", VText "# Multi-Module Project" 497) ].

(** [mavenProjectStructure], src/src/data/maven/MavenProjectStructure.js line 1; default export. *)
Definition mavenProjectStructure : JsValue :=
  VObj
    [ ("id", VStr "maven-project-structure");
      ("title", VStr "Maven Project Structure");
      ("description", VStr "Understand the standard Maven directory layout and why it matters");
      ("courseTitle", VStr "Maven");
      ("sectionTitle", VStr "Maven Basics");
      ("content", VText "# Maven Project Structure" 279) ].

(** [mavenRepositories], src/src/data/maven/MavenProjectStructure.js line 290; default export. *)
Definition mavenRepositories : JsValue :=
  VObj
    [ ("id", VStr "maven-repositories");
      ("title", VStr "Maven Repositories");
      ("description", VStr "Understand how Maven stores and retrieves dependencies");
      ("courseTitle", VStr "Maven");
      ("sectionTitle", VStr "Maven Basics");
      ("content", VText "# Maven Repositories" 356) ].

(** [mavenSpringBoot], src/src/data/maven/MavenSpringBoot.js line 1; default export. *)
Definition mavenSpringBoot : JsValue :=
  VObj
    [ ("id", VStr "maven-spring-boot");
      ("title", VStr "Maven with Spring Boot");
      ("description", VStr "Learn how to use Maven with Spring Boot applications");
      ("courseTitle", VStr "Maven");
      ("sectionTitle", VStr "Maven Basics");
      ("content", VText "# Maven with Spring Boot" 456) ].

(** [mavenVsGradle], src/src/data/maven/MavenVsGradle.js line 1; default export. *)
Definition mavenVsGradle : JsValue :=
  VObj
    [ ("id", VStr "maven-vs-gradle");
      ("title", VStr "Maven vs Gradle");
      ("description", VStr "Compare Maven and Gradle build tools");
      ("courseTitle", VStr "Maven");
      ("sectionTitle", VStr "Maven Basics");
      ("content", VText "# Maven vs Gradle" 322) ].

(** [mavenWhy], src/src/data/maven/MavenWhy.js line 1; default export. *)
Definition mavenWhy : JsValue :=
  VObj
    [ ("id", VStr "maven-why");
      ("title", VStr "Why Maven?");
      ("description", VStr "Understand why Maven is essential and what problems it solves");
      ("courseTitle", VStr "Maven");
      ("sectionTitle", VStr "Maven Basics");
      ("content", VText "# Why Maven?" 270) ].

(** [springAOPWithSpringBoot], src/src/data/spring/SpringAOPWithSpringBoot.js line 1; default export. *)
Definition springAOPWithSpringBoot : JsValue :=
  VObj
    [ ("id", VStr "spring-aop-spring-boot");
      ("title", VStr "Spring AOP with Spring Boot");
      ("description", VStr "Using AOP in Spring Boot applications with auto-configuration");
      ("content", VText "# Spring AOP with Spring Boot" 396);
      ("code", VText "// Spring Boot AOP Demo" 55);
      ("practiceQuestions", VArr [VObj
            [ ("question", VStr "Create a complete Spring Boot application with AOP for logging and performance monitoring");
              ("hint", VStr "Add spring-boot-starter-aop dependency, create aspects with @Aspect and @Component, use SLF4J for logging");
              ("starterCode", VText "// Spring Boot Application" 38) ]]) ].

(** [springApplicationContext], src/src/data/spring/SpringAOPWithSpringBoot.js line 504; default export. *)
Definition springApplicationContext : JsValue :=
  VObj
    [ ("id", VStr "spring-applicationcontext");
      ("title", VStr "Spring ApplicationContext - The Container");
      ("description", VStr "Understanding the container that holds all Spring beans");
      ("content", VText "# ApplicationContext - The Spring Container" 378);
      ("code", VText "// ApplicationContext Demo" 86);
      ("practiceQuestions", VArr [VObj
            [ ("question", VStr "Create an ApplicationContext and retrieve beans from it");
              ("hint", VStr "Use AnnotationConfigApplicationContext and getBean() method");
              ("starterCode", VText "import org.springframework.context.ApplicationContext;" 36) ]]) ].

(** [springBean], src/src/data/spring/SpringBean.js line 1; default export. *)
Definition springBean : JsValue :=
  VObj
    [ ("id", VStr "spring-bean");
      ("title", VStr "Spring Bean - Understanding Spring-Managed Objects");
      ("description", VStr "What are beans and how Spring manages them");
      ("content", VText "# Spring Bean - What Are They?" 407);
      ("code", VText "// Spring Bean Demo" 76);
      ("practiceQuestions", VArr [VObj
            [ ("question", VStr "Create multiple bean classes and show how Spring manages them");
              ("hint", VStr "Use @Service, @Repository, @Component annotations");
              ("starterCode", VText "// Create multiple beans" 54) ]]) ].

(** [springConfigurationAnnotation], src/src/data/spring/SpringConfigurationAnnotation.js line 1; default export. *)
Definition springConfigurationAnnotation : JsValue :=
  VObj
    [ ("id", VStr "spring-configuration-annotation");
      ("title", VStr "Spring Annotation Configuration");
      ("description", VStr "The modern way to configure Spring using annotations");
      ("content", VText "# Spring Annotation Configuration" 486);
      ("code", VText "// Annotation Configuration Demo" 86);
      ("practiceQuestions", VArr [VObj
            [ ("question", VStr "Create a complete Spring application using annotations with service, repository, and controller layers");
              ("hint", VStr "Use @Configuration, @ComponentScan, @Service, @Repository, @Controller, and @Autowired");
              ("starterCode", VText "// Configuration class" 67) ]]) ].

(** [springConfigurationXML], src/src/data/spring/SpringConfigurationAnnotation.js line 654; default export. *)
Definition springConfigurationXML : JsValue :=
  VObj
    [ ("id", VStr "spring-configuration-xml");
      ("title", VStr "Spring XML Configuration");
      ("description", VStr "How to configure Spring using XML files");
      ("content", VText "# Spring XML Configuration" 381);
      ("code", VText "// XML Configuration Demo" 85);
      ("practiceQuestions", VArr [VObj
            [ ("question", VStr "Create an XML configuration file for a service with repository dependency");
              ("hint", VStr "Use <bean> tag with id and class, then use <constructor-arg> or <property> for injection");
              ("starterCode", VText "<!-- Create applicationContext.xml -->" 20) ]]) ].

(** [springDataCustomQueries], src/src/data/spring/SpringDataCustomQueries.js line 1; default export. *)
Definition springDataCustomQueries : JsValue :=
  VObj
    [ ("id", VStr "spring-data-custom-queries");
      ("title", VStr "Spring Data Custom Queries");
      ("description", VStr "Using @Query annotation for custom database queries");
      ("content", VText "# Spring Data Custom Queries with @Query" 247);
      ("code", VText "// Custom Queries Demo" 50);
      ("practiceQuestions", VArr [VObj
            [ ("question", VStr "Create custom queries using @Query for complex search operations");
              ("hint", VStr "Use @Query with JPQL, named parameters, and @Modifying for updates");
              ("starterCode", VText "public interface ProductRepository extends JpaRepository<Product, Long> {" 16) ]]) ].

(** [springDataIntroduction], src/src/data/spring/SpringDataIntroduction.js line 1; default export. *)
Definition springDataIntroduction : JsValue :=
  VObj
    [ ("id", VStr "spring-data-introduction");
      ("title", VStr "Spring Data - Introduction");
      ("description", VStr "Understanding Spring Data and how it simplifies database operations");
      ("content", VText "# Spring Data - Simplifying Database Operations" 445);
      ("code", VText "// Spring Data Introduction Demo" 57);
      ("practiceQuestions", VArr [VObj
            [ ("question", VStr "Create a Spring Data repository interface with custom query methods");
              ("hint", VStr "Extend JpaRepository and define methods following naming conventions");
              ("starterCode", VText "// Entity class" 21) ]]) ].

(** [springDataRepositoryArchitecture], src/src/data/spring/SpringDataIntroduction.js line 538; default export. *)
Definition springDataRepositoryArchitecture : JsValue :=
  VObj
    [ ("id", VStr "spring-data-repository-architecture");
      ("title", VStr "Spring Data Repository Architecture");
      ("description", VStr "Understanding the repository pattern and Spring Data repository hierarchy");
      ("content", VText "# Spring Data Repository Architecture" 458);
      ("code", VText "// Repository Architecture Demo" 59);
      ("practiceQuestions", VArr [VObj
            [ ("question", VStr "Create a repository interface with pagination and sorting capabilities");
              ("hint", VStr "Extend PagingAndSortingRepository or JpaRepository and use Pageable and Sort");
              ("starterCode", VText "// Entity" 28) ]]) ].

(** [springIOC], src/src/data/spring/SpringDataIntroduction.js line 1097; default export. *)
Definition springIOC : JsValue :=
  VObj
    [ ("id", VStr "spring-ioc");
      ("title", VStr "Spring IOC - Inversion of Control");
      ("description", VStr "Understanding how Spring takes control of object creation");
      ("content", VText "# IOC - Inversion of Control" 353);
      ("code", VText "// IOC - Inversion of Control Demo" 84);
      ("practiceQuestions", VArr [VObj
            [ ("question", VStr "Explain IOC in your own words and give a real-world example");
              ("hint", VStr "Think about who creates objects - you or Spring?");
              ("starterCode", VText "// Explain IOC concept" 23) ]]) ].

(** [springIntroduction], src/src/data/spring/SpringDataIntroduction.js line 1571; default export. *)
Definition springIntroduction : JsValue :=
  VObj
    [ ("id", VStr "spring-introduction");
      ("title", VStr "Why Spring? Problems in Traditional Java");
      ("description", VStr "Understanding why Spring exists and the real problems it solves");
      ("content", VText "# Why Spring? The Real Problems in Traditional Java" 414);
      ("code", VText "// Traditional Java vs Spring - Understanding the Problem" 71);
      ("practiceQuestions", VArr [VObj
            [ ("question", VStr "Explain the main problems with traditional Java that Spring solves");
              ("hint", VStr "Think about object creation, dependencies, testing, and configuration");
              ("starterCode", VText "// Write your explanation here" 17) ]]) ].

(** [springJDBCTemplate], src/src/data/spring/SpringJDBCTemplate.js line 1; default export. *)
Definition springJDBCTemplate : JsValue :=
  VObj
    [ ("id", VStr "spring-jdbc-template");
      ("title", VStr "Spring JDBC Template");
      ("description", VStr "Using JDBC Template for database operations without JPA");
      ("content", VText "# Spring JDBC Template" 500);
      ("code", VText "// JDBC Template Demo" 63);
      ("practiceQuestions", VArr [VObj
            [ ("question", VStr "Create a complete repository using JDBC Template with CRUD operations");
              ("hint", VStr "Use JdbcTemplate, RowMapper, and implement save, findById, findAll, update, delete methods");
              ("starterCode", VText "@Repository" 32) ]]) ].

(** [springMVCViewResolver], src/src/data/spring/SpringMVCViewResolver.js line 1; default export. *)
Definition springMVCViewResolver : JsValue :=
  VObj
    [ ("id", VStr "spring-mvc-viewresolver");
      ("title", VStr "Spring MVC ViewResolver");
      ("description", VStr "How Spring resolves view names to actual views");
      ("content", VText "# ViewResolver - Resolving Views" 330);
      ("code", VText "// ViewResolver Demo" 73);
      ("practiceQuestions", VArr [VObj
            [ ("question", VStr "Configure ViewResolver to resolve JSP views from /WEB-INF/views/ directory");
              ("hint", VStr "Use InternalResourceViewResolver with prefix and suffix properties");
              ("starterCode", VText "<!-- Configure ViewResolver in XML -->" 27) ]]) ].

(** [springProjectLoginStudentCRUD], src/src/data/spring/SpringProjectLoginStudentCRUD.js line 1; default export. *)
Definition springProjectLoginStudentCRUD : JsValue :=
  VObj
    [ ("id", VStr "spring-project-login-student-crud");
      ("title", VStr "Spring Project - Login + Student CRUD");
      ("description", VStr "Building a complete Spring MVC application with login and student management");
      ("content", VText "# Complete Spring Project - Login + Student CRUD" 649);
      ("code", VText "// Complete Spring Project Demo" 77);
      ("practiceQuestions", VArr [VObj
            [ ("question", VStr "Build a complete Spring MVC application with login and student CRUD operations");
              ("hint", VStr "Create all layers: model, repository, service, controller, and JSP views");
              ("starterCode", VText "// This is a complete project - create all files as shown in the lesson" 10) ]]) ].

(** [mavenBestPractices], src/unnamed/part_000 line 142; default export. *)
Definition mavenBestPractices : JsValue :=
  VObj
    [ ("id", VStr "maven-best-practices");
      ("title", VStr "Best Practices");
      ("description", VStr "Maven best practices for professional development");
      ("courseTitle", VStr "Maven");
      ("sectionTitle", VStr "Maven Basics");
      ("content", VText "# Maven Best Practices" 462) ].

(** [mavenCommands], src/unnamed/part_001 line 1; default export. *)
Definition mavenCommands : JsValue :=
  VObj
    [ ("id", VStr "maven-commands");
      ("title", VStr "Useful Maven Commands");
      ("description", VStr "Essential Maven commands every developer should know");
      ("courseTitle", VStr "Maven");
      ("sectionTitle", VStr "Maven Basics");
      ("content", VText "# Useful Maven Commands" 476) ].

(** [mavenPlugins], src/unnamed/part_002 line 1; default export. *)
Definition mavenPlugins : JsValue :=
  VObj
    [ ("id", VStr "maven-plugins");
      ("title", VStr "Maven Plugins");
      ("description", VStr "Learn how to use and configure Maven plugins");
      ("courseTitle", VStr "Maven");
      ("sectionTitle", VStr "Maven Basics");
      ("content", VText "# Maven Plugins" 406) ].

(** [mavenPomXml], src/unnamed/part_002 line 417; default export. *)
Definition mavenPomXml : JsValue :=
  VObj
    [ ("id", VStr "maven-pom-xml");
      ("title", VStr "What is pom.xml?");
      ("description", VStr "Learn about the Project Object Model file - the heart of every Maven project");
      ("courseTitle", VStr "Maven");
      ("sectionTitle", VStr "Maven Basics");
      ("content", VText "# What is pom.xml?" 380) ].

(** [springAOPAdvancedPointcuts], src/unnamed/part_003 line 1; default export. *)
Definition springAOPAdvancedPointcuts : JsValue :=
  VObj
    [ ("id", VStr "spring-aop-advanced-pointcuts");
      ("title", VStr "Spring AOP - Advanced Pointcut Expressions");
      ("description", VStr "Mastering complex pointcut expressions for precise aspect targeting");
      ("content", VText "# Spring AOP - Advanced Pointcut Expressions" 486);
      ("code", VText "// Advanced Pointcuts Demo" 58);
      ("practiceQuestions", VArr [VObj
            [ ("question", VStr "Create complex pointcut expressions for different scenarios");
              ("hint", VStr "Use execution, within, args, annotation-based pointcuts, and combine them with &&, ||, !");
              ("starterCode", VText "@Aspect" 14) ]]) ].

(** [springAOPAspectOrdering], src/unnamed/part_003 line 573; default export. *)
Definition springAOPAspectOrdering : JsValue :=
  VObj
    [ ("id", VStr "spring-aop-aspect-ordering");
      ("title", VStr "Spring AOP - Aspect Ordering");
      ("description", VStr "Controlling the order in which multiple aspects are applied");
      ("content", VText "# Spring AOP - Aspect Ordering" 427);
      ("code", VText "// Aspect Ordering Demo" 53);
      ("practiceQuestions", VArr [VObj
            [ ("question", VStr "Create multiple aspects with proper ordering for a service method");
              ("hint", VStr "Use @Order annotation, create Security (1), Validation (2), Logging (3), Transaction (4) aspects");
              ("starterCode", VText "// Define order constants" 39) ]]) ].

(** [springAOPCustomAnnotations], src/unnamed/part_003 line 1106; default export. *)
Definition springAOPCustomAnnotations : JsValue :=
  VObj
    [ ("id", VStr "spring-aop-custom-annotations");
      ("title", VStr "Spring AOP - Custom Annotations");
      ("description", VStr "Creating custom annotations to mark methods for aspect processing");
      ("content", VText "# Spring AOP - Custom Annotations" 517);
      ("code", VText "// Custom Annotations Demo" 55);
      ("practiceQuestions", VArr [VObj
            [ ("question", VStr "Create a custom annotation for method timing and implement the aspect");
              ("hint", VStr "Create @MeasureTime annotation with description parameter, then create aspect using @Around");
              ("starterCode", VText "// Create annotation" 22) ]]) ].

(** [springAOPIntroduction], src/unnamed/part_004 line 1; default export. *)
Definition springAOPIntroduction : JsValue :=
  VObj
    [ ("id", VStr "spring-aop-introduction");
      ("title", VStr "Spring AOP - Introduction");
      ("description", VStr "Understanding Aspect-Oriented Programming and cross-cutting concerns");
      ("content", VText "# Spring AOP - Aspect-Oriented Programming" 522);
      ("code", VText "// Spring AOP Introduction Demo" 71);
      ("practiceQuestions", VArr [VObj
            [ ("question", VStr "Create a logging aspect that logs before and after all service methods");
              ("hint", VStr "Use @Aspect, @Component, @Before, @After, and @Pointcut annotations");
              ("starterCode", VText "@Aspect" 18) ]]) ].

(** [springDI], src/unnamed/part_005 line 1; default export. *)
Definition springDI : JsValue :=
  VObj
    [ ("id", VStr "spring-di");
      ("title", VStr "Spring DI - Dependency Injection");
      ("description", VStr "How Spring automatically wires dependencies together");
      ("content", VText "# DI - Dependency Injection" 449);
      ("code", VText "// Dependency Injection Demo" 81);
      ("practiceQuestions", VArr [VObj
            [ ("question", VStr "Create a service class with multiple dependencies using @Autowired");
              ("hint", VStr "Use @Service annotation and @Autowired for each dependency");
              ("starterCode", VText "// Create a service with multiple dependencies" 52) ]]) ].

(** [springMVCController], src/unnamed/part_006 line 1; default export. *)
Definition springMVCController : JsValue :=
  VObj
    [ ("id", VStr "spring-mvc-controller");
      ("title", VStr "Spring MVC Controller");
      ("description", VStr "How to create controllers to handle web requests");
      ("content", VText "# Spring MVC Controller" 451);
      ("code", VText "// Spring MVC Controller Demo" 95);
      ("practiceQuestions", VArr [VObj
            [ ("question", VStr "Create a controller with methods to list, add, and delete students");
              ("hint", VStr "Use @Controller, @GetMapping, @PostMapping, @RequestParam or @PathVariable, and Model");
              ("starterCode", VText "@Controller" 37) ]]) ].

(** [springMVCDispatcherServlet], src/unnamed/part_006 line 598; default export. *)
Definition springMVCDispatcherServlet : JsValue :=
  VObj
    [ ("id", VStr "spring-mvc-dispatcherservlet");
      ("title", VStr "Spring MVC DispatcherServlet");
      ("description", VStr "Understanding the front controller of Spring MVC");
      ("content", VText "# DispatcherServlet - The Front Controller" 355);
      ("code", VText "// DispatcherServlet Demo" 82);
      ("practiceQuestions", VArr [VObj
            [ ("question", VStr "Configure DispatcherServlet in web.xml for a Spring MVC application");
              ("hint", VStr "Use <servlet> and <servlet-mapping> tags with DispatcherServlet class");
              ("starterCode", VText "<!-- Configure DispatcherServlet in web.xml -->" 27) ]]) ].

(** [springMVCModelAndView], src/unnamed/part_007 line 1; default export. *)
Definition springMVCModelAndView : JsValue :=
  VObj
    [ ("id", VStr "spring-mvc-modelandview");
      ("title", VStr "Spring MVC ModelAndView");
      ("description", VStr "Using ModelAndView to pass data and specify views");
      ("content", VText "# ModelAndView - Passing Data and Views Together" 337);
      ("code", VText "// ModelAndView Demo" 85);
      ("practiceQuestions", VArr [VObj
            [ ("question", VStr "Create controller methods using ModelAndView to display and save students");
              ("hint", VStr "Use ModelAndView constructor, addObject() to add data, and setViewName() or constructor for view name");
              ("starterCode", VText "@Controller" 34) ]]) ].

(** The Maven lessons, in the order of the files. *)
Definition maven_modules : list (string * JsValue) :=
  [ ("mavenCommonErrors", mavenCommonErrors);
      ("mavenCreateProject", mavenCreateProject);
      ("mavenDependencyManagement", mavenDependencyManagement);
      ("mavenInstallation", mavenInstallation);
      ("mavenIntroduction", mavenIntroduction);
      ("mavenMultiModule", mavenMultiModule);
      ("mavenProjectStructure", mavenProjectStructure);
      ("mavenRepositories", mavenRepositories);
      ("mavenSpringBoot", mavenSpringBoot);
      ("mavenVsGradle", mavenVsGradle);
      ("mavenWhy", mavenWhy);
      ("mavenBestPractices", mavenBestPractices);
      ("mavenCommands", mavenCommands);
      ("mavenPlugins", mavenPlugins);
      ("mavenPomXml", mavenPomXml) ].

(** The Spring lessons, in the order of the barrel file
    (src/src/data/spring/SpringProjectLoginStudentCRUD.js line 751, the
    [export { ... }] list): it re-exports the very objects the lesson
    modules export, it builds no copies. *)
Definition spring_index : list (string * JsValue) :=
  [ ("springIntroduction", springIntroduction);
      ("springIOC", springIOC);
      ("springDI", springDI);
      ("springBean", springBean);
      ("springApplicationContext", springApplicationContext);
      ("springConfigurationXML", springConfigurationXML);
      ("springConfigurationAnnotation", springConfigurationAnnotation);
      ("springMVCDispatcherServlet", springMVCDispatcherServlet);
      ("springMVCController", springMVCController);
      ("springMVCViewResolver", springMVCViewResolver);
      ("springMVCModelAndView", springMVCModelAndView);
      ("springProjectLoginStudentCRUD", springProjectLoginStudentCRUD);
      ("springDataIntroduction", springDataIntroduction);
      ("springDataRepositoryArchitecture", springDataRepositoryArchitecture);
      ("springJDBCTemplate", springJDBCTemplate);
      ("springDataCustomQueries", springDataCustomQueries);
      ("springAOPIntroduction", springAOPIntroduction);
      ("springAOPAdvancedPointcuts", springAOPAdvancedPointcuts);
      ("springAOPCustomAnnotations", springAOPCustomAnnotations);
      ("springAOPAspectOrdering", springAOPAspectOrdering);
      ("springAOPWithSpringBoot", springAOPWithSpringBoot) ].

Definition tutorial_modules : list (string * JsValue) :=
  maven_modules ++ spring_index.

End Content.

(** ** The AdSense component *)

Module AdSense.

(** The one attribute the component reads from the ad slot. *)
Definition STATUS_ATTR : string := "data-adsbygoogle-status".

(** The global the ad script and the component share. *)
Definition ADSBYGOOGLE : string := "window.adsbygoogle".

(** *** Props and the rendered tree *)

Record Props : Type := {
  adSlot : string;
  adFormat : string;
  adLayout : string;
  fullWidthResponsive : bool;
  style : list (string * string);
  className : string;
  adClient : string
}.

(** The parameter defaults of lines 5-11; [publisherId] stands for
    [ADSENSE_CONFIG.publisherId] of the configuration module. *)
Definition default_props (publisherId : string) : Props :=
  {| adSlot := "1234567890";
     adFormat := "auto";
     adLayout := "";
     fullWidthResponsive := true;
     style := [];
     className := "";
     adClient := publisherId |}.

Record InsNode : Type := {
  ins_class : string;
  ins_style : list (string * string);
  ins_data : list (string * string)
}.

Record VNode : Type := {
  div_class : string;
  div_style : list (string * string);
  child : InsNode
}.

(** The JSX of lines 87-111. *)
Definition ad_container (p : Props) (loaded failed : bool) : VNode :=
  {| div_class :=
       "adsense-container " ++ className p ++ " "
         ++ (if loaded then "ad-loaded" else "ad-loading");
     div_style :=
       style p ++ [ ("minHeight", if loaded then "auto" else "0");
                    ("display", if failed then "none" else "block") ];
     child :=
       {| ins_class := "adsbygoogle";
          ins_style := [ ("display", "block");
                         ("minHeight", if loaded then "auto" else "0") ];
          ins_data :=
            [ ("data-ad-client", adClient p);
              ("data-ad-slot", adSlot p);
              ("data-ad-format", adFormat p);
              ("data-ad-layout", adLayout p);
              ("data-full-width-responsive",
               if fullWidthResponsive p then "true" else "false") ] |} |}.

(** *** The page: the slot element, timers, the observer *)

(** The [<ins>] element behind [adRef.current]: its attributes, its inline
    style, and the [offsetHeight] of the first [iframe] below it, if the ad
    script has put one there. *)
Record Element : Type := {
  attrs : gmap string string;
  el_style : list (string * string);
  iframe : option Z
}.

Definition getAttribute (name : string) (el : Element) : option string :=
  attrs el !! name.

Definition hasAttribute (name : string) (el : Element) : bool :=
  match attrs el !! name with Some _ => true | None => false end.

Definition setAttribute (name value : string) (el : Element) : Element :=
  {| attrs := <[name := value]> (attrs el);
     el_style := el_style el;
     iframe := iframe el |}.

Definition removeAttribute (name : string) (el : Element) : Element :=
  {| attrs := delete name (attrs el);
     el_style := el_style el;
     iframe := iframe el |}.

Definition with_iframe (h : option Z) (el : Element) : Element :=
  {| attrs := attrs el; el_style := el_style el; iframe := h |}.

(** React creating the element of an [InsNode], and patching the element
    it already has.  A mounted component is rendered with the same props
    every time, so of what the [<ins>] is given only the inline style
    changes between renders (its [minHeight] follows [adLoaded]); React
    writes what changed and leaves every attribute of the element as it
    finds it. *)
Definition managed_attrs (n : InsNode) : gmap string string :=
  <["class" := ins_class n]> (list_to_map (ins_data n)).

Definition create_ins (n : InsNode) : Element :=
  {| attrs := managed_attrs n; el_style := ins_style n; iframe := None |}.

Definition patch_ins (n : InsNode) (el : Element) : Element :=
  {| attrs := attrs el;
     el_style := ins_style n;
     iframe := iframe el |}.

Definition reconcile (v : option VNode) (cur : option Element) : option Element :=
  match v, cur with
  | Some n, Some el => Some (patch_ins (child n) el)
  | Some n, None => Some (create_ins (child n))
  | None, _ => None
  end.

(** The two callbacks handed to [setTimeout]: the 500 ms content check of
    line 38, and the 5 s fallback of line 65 together with the values of
    [adLoaded] and [adFailed] its closure holds. *)
Inductive TimerKind : Type :=
| IframeCheck
| Fallback (cLoaded cFailed : bool).

Record Timer : Type := { tid : nat; due : Z; kind : TimerKind }.

(** What the cleanup function of the monitoring effect holds on to: the
    observer (connected to the slot or not, with the filter it was given)
    and the id of the fallback timeout. *)
Record Monitor : Type := {
  observed : bool;
  attributeFilter : list string;
  timeout : nat
}.

Record World : Type := {
  now : Z;                       (* the clock, in milliseconds *)
  adLoaded : bool;               (* useState, line 15 *)
  adFailed : bool;               (* useState, line 16 *)
  deps : bool * bool;            (* [adLoaded, adFailed] of the last effect run *)
  adRef : option Element;        (* adRef.current *)
  monitor : option Monitor;      (* cleanup of the monitoring effect *)
  timers : list Timer;           (* pending timeouts, oldest first *)
  next_timer : nat;
  store : gmap string JsValue;   (* objects of the page, by binding *)
  pushes : nat;                  (* calls of adsbygoogle.push so far *)
  console : list string          (* console.error lines *)
}.

Definition setAdLoaded (b : bool) (w : World) : World :=
  {| now := now w; adLoaded := b; adFailed := adFailed w; deps := deps w;
     adRef := adRef w; monitor := monitor w; timers := timers w;
     next_timer := next_timer w; store := store w; pushes := pushes w;
     console := console w |}.

Definition setAdFailed (b : bool) (w : World) : World :=
  {| now := now w; adLoaded := adLoaded w; adFailed := b; deps := deps w;
     adRef := adRef w; monitor := monitor w; timers := timers w;
     next_timer := next_timer w; store := store w; pushes := pushes w;
     console := console w |}.

Definition with_now (t : Z) (w : World) : World :=
  {| now := t; adLoaded := adLoaded w; adFailed := adFailed w; deps := deps w;
     adRef := adRef w; monitor := monitor w; timers := timers w;
     next_timer := next_timer w; store := store w; pushes := pushes w;
     console := console w |}.

Definition with_deps (d : bool * bool) (w : World) : World :=
  {| now := now w; adLoaded := adLoaded w; adFailed := adFailed w; deps := d;
     adRef := adRef w; monitor := monitor w; timers := timers w;
     next_timer := next_timer w; store := store w; pushes := pushes w;
     console := console w |}.

Definition with_adRef (r : option Element) (w : World) : World :=
  {| now := now w; adLoaded := adLoaded w; adFailed := adFailed w;
     deps := deps w; adRef := r; monitor := monitor w; timers := timers w;
     next_timer := next_timer w; store := store w; pushes := pushes w;
     console := console w |}.

Definition with_monitor (m : option Monitor) (w : World) : World :=
  {| now := now w; adLoaded := adLoaded w; adFailed := adFailed w;
     deps := deps w; adRef := adRef w; monitor := m; timers := timers w;
     next_timer := next_timer w; store := store w; pushes := pushes w;
     console := console w |}.

Definition with_timers (ts : list Timer) (w : World) : World :=
  {| now := now w; adLoaded := adLoaded w; adFailed := adFailed w;
     deps := deps w; adRef := adRef w; monitor := monitor w; timers := ts;
     next_timer := next_timer w; store := store w; pushes := pushes w;
     console := console w |}.

Definition with_store (s : gmap string JsValue) (w : World) : World :=
  {| now := now w; adLoaded := adLoaded w; adFailed := adFailed w;
     deps := deps w; adRef := adRef w; monitor := monitor w;
     timers := timers w; next_timer := next_timer w; store := s;
     pushes := pushes w; console := console w |}.

Definition count_push (w : World) : World :=
  {| now := now w; adLoaded := adLoaded w; adFailed := adFailed w;
     deps := deps w; adRef := adRef w; monitor := monitor w;
     timers := timers w; next_timer := next_timer w; store := store w;
     pushes := S (pushes w); console := console w |}.

Definition console_error (line : string) (w : World) : World :=
  {| now := now w; adLoaded := adLoaded w; adFailed := adFailed w;
     deps := deps w; adRef := adRef w; monitor := monitor w;
     timers := timers w; next_timer := next_timer w; store := store w;
     pushes := pushes w; console := console w ++ [line] |}.

(** [setTimeout(cb, delay)]: the new timer goes to the end of the queue
    and its id is returned; [clearTimeout(id)] drops it. *)
Definition setTimeout (k : TimerKind) (delay : Z) (w : World) : World * nat :=
  ({| now := now w; adLoaded := adLoaded w; adFailed := adFailed w;
      deps := deps w; adRef := adRef w; monitor := monitor w;
      timers := timers w ++ [ {| tid := next_timer w;
                                 due := now w + delay;
                                 kind := k |} ];
      next_timer := S (next_timer w); store := store w; pushes := pushes w;
      console := console w |},
   next_timer w).

Definition clearTimeout (id : nat) (w : World) : World :=
  with_timers (filter (λ t, tid t ≠ id) (timers w)) w.

(** *** Statements that can throw *)

Inductive Completion (A : Type) : Type :=
| Normal (a : A)
| Throw (err : string).
Arguments Normal {A} a.
Arguments Throw {A} err.

Definition Js (A : Type) : Type := World → World * Completion A.

#[global] Instance Js_ret : MRet Js := λ A a w, (w, Normal a).

#[global] Instance Js_bind : MBind Js := λ A B k m w,
  match m w with
  | (w', Normal a) => k a w'
  | (w', Throw e) => (w', Throw e)
  end.

Definition throw {A} (err : string) : Js A := λ w, (w, Throw err).

Definition try_catch {A} (body : Js A) (handler : string → Js A) : Js A :=
  λ w, match body w with
       | (w', Normal a) => (w', Normal a)
       | (w', Throw e) => handler e w'
       end.

Definition lift (f : World → World) : Js unit := λ w, (f w, Normal tt).

Definition current : Js World := λ w, (w, Normal w).

(** *** The component *)

Section Component.

(** What the component takes from outside this file: the answer of
    [isAdSenseConfigured()] (src/config/adsense.js), the props it is
    rendered with, and what the ad script's own [push] does once the
    script has replaced the plain array ([None]: it returns, [Some e]:
    it throws [e]). *)
Variable isAdSenseConfigured : bool.
Variable props : Props.
Variable script_push : option string.

(** Lines 77-111: the value the component function returns. *)
Definition render (loaded failed : bool) : option VNode :=
  if negb isAdSenseConfigured then None
  else if failed then None
  else Some (ad_container props loaded failed).

(** [q.push({})].  On a plain array it appends, in place; on the object
    the loaded ad script installs it runs the script's [push]; anything
    else has no [push] to call, and the call throws a [TypeError] (the
    message stands for the engine's, whose wording varies). *)
Definition push_call (q : JsValue) (arg : JsValue) : Js unit :=
  match q with
  | VArr items =>
      lift (λ w, with_store (<[ADSBYGOOGLE := VArr (items ++ [arg])]> (store w))
                   (count_push w))
  | VObj _ =>
      lift count_push;;
      match script_push with
      | None => mret tt
      | Some e => throw e
      end
  | _ => throw "TypeError: push is not a function"
  end.

(** Lines 19-22, the body of the [try]. *)
Definition push_body : Js unit :=
  w ← current;
  match adRef w, store w !! ADSBYGOOGLE with
  | Some el, Some q =>
      if truthy q && negb (hasAttribute STATUS_ATTR el) then
        let q' := if truthy q then q else VArr [] in
        lift (λ w, with_store (<[ADSBYGOOGLE := q']> (store w)) w);;
        push_call q' (VObj [])
      else mret tt
  | _, _ => mret tt
  end.

(** Lines 18-27, the first effect. *)
Definition push_effect : Js unit :=
  try_catch push_body
    (λ err, lift (λ w, setAdFailed true
                         (console_error ("AdSense error: " ++ err) w))).

(** Lines 33-50. *)
Definition getStatus (w : World) : option string :=
  adRef w ≫= getAttribute STATUS_ATTR.

Definition checkAdStatus (w : World) : World :=
  match getStatus w with
  | Some status =>
      if String.eqb status "done" then
        (setTimeout IframeCheck 500 (setAdLoaded true w)).1
      else if String.eqb status "error" || String.eqb status "unfilled" then
        setAdFailed true w
      else w
  | None => w
  end.

(** Lines 39-45, the callback of the 500 ms timeout. *)
Definition iframe_check (w : World) : World :=
  match adRef w ≫= iframe with
  | Some offsetHeight =>
      if 0 <? offsetHeight then setAdLoaded true w else setAdFailed true w
  | None => setAdFailed true w
  end.

(** Lines 66-68, the callback of the 5 s timeout, on the values its
    closure captured. *)
Definition fallback (cLoaded cFailed : bool) (w : World) : World :=
  if negb cLoaded && negb cFailed then setAdFailed true w else w.

Definition run_timer (k : TimerKind) (w : World) : World :=
  match k with
  | IframeCheck => iframe_check w
  | Fallback cLoaded cFailed => fallback cLoaded cFailed w
  end.

(** Lines 30-75, the second effect, run by a render that saw
    [adLoaded = cLoaded] and [adFailed = cFailed].  Past the guard of
    line 31 it leaves a cleanup behind, otherwise none. *)
Definition monitor_effect (cLoaded cFailed : bool) (w : World) : World :=
  if bool_decide (adRef w = None) || negb isAdSenseConfigured then
    with_monitor None w
  else
    let w1 := checkAdStatus w in
    let connected := bool_decide (adRef w1 ≠ None) in
    let armed := setTimeout (Fallback cLoaded cFailed) 5000 w1 in
    with_monitor
      (Some {| observed := connected;
               attributeFilter := [STATUS_ATTR];
               timeout := armed.2 |})
      armed.1.

(** Lines 71-74. *)
Definition cleanup (w : World) : World :=
  match monitor w with
  | Some m => with_monitor None (clearTimeout (timeout m) w)
  | None => w
  end.

(** One render and commit: the component function runs on the current
    state, React brings the slot element in line with what it returned,
    and, when [adLoaded] or [adFailed] differ from the last run of the
    monitoring effect, cleans that run up and runs the effect again. *)
Definition rerender (w : World) : World :=
  let loaded := adLoaded w in
  let failed := adFailed w in
  let w1 := with_adRef (reconcile (render loaded failed) (adRef w)) w in
  if bool_decide (deps w1 = (loaded, failed)) then w1
  else monitor_effect loaded failed (cleanup (with_deps (loaded, failed) w1)).

(** A state setter that changed the state schedules a render; the
    renders go on until the state is the one last rendered.  The renders
    a callback asks for are committed before the next event is taken: no
    timer and no observer callback runs in between.  Three rounds are
    enough ([settle_stable] below). *)
Fixpoint commit (fuel : nat) (w : World) : World :=
  if bool_decide (deps w = (adLoaded w, adFailed w)) then w
  else match fuel with
       | O => w
       | S fuel' => commit fuel' (rerender w)
       end.

Definition settle : World → World := commit 3.

(** What a render of the component shows in state [w]. *)
Definition view (w : World) : option VNode :=
  render (adLoaded w) (adFailed w).

(** The observer calls back for a change of an attribute of its filter
    on the element it is connected to. *)
Definition notify (name : string) (w : World) : World :=
  match monitor w with
  | Some m =>
      if observed m && bool_decide (name ∈ attributeFilter m)
      then checkAdStatus w else w
  | None => w
  end.

(** *** Mounting *)

(** The state of the first render: both flags false (lines 15-16), the
    slot element there if the render returned the container.  [status0]
    is what the ad script has written to the status attribute of the new
    element by the time the effects run, if it was that quick. *)
Definition initial (t0 : Z) (store0 : gmap string JsValue)
    (status0 : option string) : World :=
  let el := create_ins ∘ child <$> render false false in
  {| now := t0;
     adLoaded := false;
     adFailed := false;
     deps := (false, false);
     adRef := match status0 with
              | Some s => setAttribute STATUS_ATTR s <$> el
              | None => el
              end;
     monitor := None;
     timers := [];
     next_timer := O;
     store := store0;
     pushes := O;
     console := [] |}.

(** The mount: first render, then the two effects in source order, then
    the renders their state changes ask for.  An effect that throws
    takes the component down: [None]. *)
Definition mount (t0 : Z) (store0 : gmap string JsValue)
    (status0 : option string) : option World :=
  match push_effect (initial t0 store0 status0) with
  | (w1, Normal _) => Some (settle (monitor_effect false false w1))
  | (_, Throw _) => None
  end.

(** *** What happens to a mounted component *)

(** The events cover the time the component stays mounted with the same
    props; unmounting is not among them. *)

Inductive Event : Type :=
| Wait (dt : Z)                           (* time passes *)
| Fire                                    (* the next due timeout runs *)
| SetAttribute (name value : string)      (* on the slot element *)
| RemoveAttribute (name : string)
| SetIframe (offsetHeight : option Z)     (* the ad script fills the slot *)
| Rerender.                               (* the parent renders again *)

(** The pending timer that is due first; among equals the older one. *)
Fixpoint earliest (ts : list Timer) : option Timer :=
  match ts with
  | [] => None
  | t :: rest =>
      match earliest rest with
      | Some t' => if due t' <? due t then Some t' else Some t
      | None => Some t
      end
  end.

(** A step is refused ([None]) when the clock would run past a pending
    timeout, or when no timeout is due. *)
Definition step (e : Event) (w : World) : option World :=
  match e with
  | Wait dt =>
      if (0 <=? dt) && forallb (λ t, now w + dt <=? due t) (timers w)
      then Some (with_now (now w + dt) w)
      else None
  | Fire =>
      match earliest (timers w) with
      | Some t =>
          if due t <=? now w
          then Some (settle (run_timer (kind t) (clearTimeout (tid t) w)))
          else None
      | None => None
      end
  | SetAttribute name value =>
      match adRef w with
      | Some el =>
          Some (settle (notify name
                          (with_adRef (Some (setAttribute name value el)) w)))
      | None => Some w
      end
  | RemoveAttribute name =>
      match adRef w with
      | Some el =>
          Some (settle (notify name
                          (with_adRef (Some (removeAttribute name el)) w)))
      | None => Some w
      end
  | SetIframe h =>
      Some (with_adRef (with_iframe h <$> adRef w) w)
  | Rerender => Some (settle (rerender w))
  end.

Fixpoint run (evs : list Event) (w : World) : option World :=
  match evs with
  | [] => Some w
  | e :: rest =>
      match step e w with
      | Some w' => run rest w'
      | None => None
      end
  end.

(** The states a mounted component can be in. *)
Definition reachable (w : World) : Prop :=
  ∃ t0 st0 s0 w0 evs, mount t0 st0 s0 = Some w0 ∧ run evs w0 = Some w.

End Component.

(** *** Relations between states *)

(** [w'] comes from [w] by callbacks of the component other than the
    first effect: the clock, the store, the push count and the console are
    where they were, and a flag that was set is still set. *)
Definition evolves (w w' : World) : Prop :=
  now w' = now w ∧ store w' = store w ∧ pushes w' = pushes w ∧
  console w' = console w ∧
  (adLoaded w = true → adLoaded w' = true) ∧
  (adFailed w = true → adFailed w' = true).

Definition stable (w : World) : Prop :=
  deps w = (adLoaded w, adFailed w).

(** What holds of the timer queue and of the cleanup at every point of a
    run: no pending timer is overdue, timer ids are fresh and distinct, and
    the cleanup holds an observer connected with the one-attribute filter
    and the id of a timer that is not a content check. *)
Record wf (w : World) : Prop := {
  wf_due : ∀ t, t ∈ timers w → now w ≤ due t;
  wf_tid : ∀ t, t ∈ timers w → (tid t < next_timer w)%nat;
  wf_uniq : ∀ t t', t ∈ timers w → t' ∈ timers w → tid t = tid t' → t = t';
  wf_monitor : ∀ m, monitor w = Some m →
    attributeFilter m = [STATUS_ATTR] ∧ observed m = true ∧
    (timeout m < next_timer w)%nat ∧
    ∀ t, t ∈ timers w → tid t = timeout m → kind t ≠ IframeCheck
}.

(** [w'] has every content check that is pending in [w]. *)
Definition keeps_checks (w w' : World) : Prop :=
  ∀ t, kind t = IframeCheck → t ∈ timers w → t ∈ timers w'.

(** The state in which the first run of the monitoring effect, at [t0],
    is still the current one: nothing marked, the slot in the page, the
    observer connected, and the 5 s fallback the only pending timer. *)
Definition armed (t0 : Z) (w : World) : Prop :=
  deps w = (false, false) ∧ (∃ el, adRef w = Some el) ∧
  ∃ id,
    monitor w = Some {| observed := true;
                        attributeFilter := [STATUS_ATTR];
                        timeout := id |} ∧
    timers w = [ {| tid := id; due := t0 + 5000; kind := Fallback false false |} ] ∧
    now w ≤ t0 + 5000.

(** The state of a component that shows and watches nothing. *)
Definition idle (w : World) : Prop :=
  adLoaded w = false ∧ adFailed w = false ∧ deps w = (false, false) ∧
  adRef w = None ∧ monitor w = None ∧ timers w = [] ∧ pushes w = O.

(** *** The page the component is mounted in *)

(** The lesson objects, each under the binding that exports it. *)
Definition module_store : gmap string JsValue :=
  list_to_map Content.tutorial_modules.

(** The store at mount: the lessons, and [window.adsbygoogle] if something
    has defined it. *)
Definition page_store (queue : option JsValue) : gmap string JsValue :=
  match queue with
  | Some q => <[ADSBYGOOGLE := q]> module_store
  | None => module_store
  end.

(** Props and pages to run the component on. *)
Definition example_props : Props := default_props "ca-pub-0000000000000000".

Definition example_store : gmap string JsValue := {[ ADSBYGOOGLE := VArr [] ]}.

End AdSense.

(** ** Reading the records and the rendered tree *)

(** The string under key [k], if the record has one. *)
Definition string_field (k : string) (o : JsValue) : option string :=
  match get k o with
  | Some (VStr s) => Some s
  | _ => None
  end.

(** The first line of the text under key [k]. *)
Definition heading_of (k : string) (o : JsValue) : option string :=
  match get k o with
  | Some (VText h _) => Some h
  | _ => None
  end.

(** One entry of [practiceQuestions]: an object with the three strings
    the literals give it. *)
Definition question_shape (q : JsValue) : bool :=
  bool_decide (typeof q = TObject)
  && field_is TString "question" q && field_is TString "hint" q
  && field_is TString "starterCode" q
  && bool_decide (own_keys q = ["question"; "hint"; "starterCode"]).

Definition questions_of (o : JsValue) : list JsValue :=
  match get "practiceQuestions" o with
  | Some (VArr qs) => qs
  | _ => []
  end.

(** A read of a style object built by spreading: the last binding of a
    key is the one that counts. *)
Fixpoint style_get (k : string) (st : list (string * string)) : option string :=
  match st with
  | [] => None
  | (k', v) :: rest =>
      match style_get k rest with
      | Some v' => Some v'
      | None => if String.eqb k k' then Some v else None
      end
  end.

(** ** The Maven icon *)

Module MavenIcon.

(** The commands of an SVG path, absolute coordinates. *)
Inductive PathCmd : Type :=
| MoveTo (x y : Z)
| LineTo (x y : Z)
| ClosePath.

Inductive Shape : Type :=
| Circle (cx cy r : Z) (fill : string)
| Path (d : list PathCmd) (fill : string).

(** [width] and [height] are handed the [size] prop as it comes; [Num]
    is whatever the caller passes there (a JavaScript number). *)
Record Svg (Num : Type) : Type := {
  width : Num;
  height : Num;
  viewBox : Z * Z * Z * Z;          (* min-x, min-y, width, height *)
  fill : string;
  xmlns : string;
  svg_class : string;
  children : list Shape
}.
Arguments width {Num} _.
Arguments height {Num} _.
Arguments viewBox {Num} _.
Arguments fill {Num} _.
Arguments xmlns {Num} _.
Arguments svg_class {Num} _.
Arguments children {Num} _.

Record IconProps (Num : Type) : Type := { size : Num; className : string }.
Arguments size {Num} _.
Arguments className {Num} _.

(** The parameter defaults of line 118. *)
Definition default_icon_props : IconProps Z := {| size := 24; className := "" |}.

(** The [d] attribute of line 133,
    [M7 8L7 16L9 16L9 11L12 13L15 11L15 16L17 16L17 8L15 8L12 10L9 8L7 8Z]. *)
Definition letter_path : list PathCmd :=
  [ MoveTo 7 8; LineTo 7 16; LineTo 9 16; LineTo 9 11; LineTo 12 13;
    LineTo 15 11; LineTo 15 16; LineTo 17 16; LineTo 17 8; LineTo 15 8;
    LineTo 12 10; LineTo 9 8; LineTo 7 8; ClosePath ].

(** Lines 118-138. *)
Definition MavenIcon {Num : Type} (p : IconProps Num) : Svg Num :=
  {| width := size p;
     height := size p;
     viewBox := (0, 0, 24, 24);
     fill := "none";
     xmlns := "http://www.w3.org/2000/svg";
     svg_class := className p;
     children := [ Circle 12 12 11 "#C71A36"; Path letter_path "white" ] |}.

(** The points a path goes through. *)
Definition vertices (d : list PathCmd) : list (Z * Z) :=
  omap (λ c, match c with
             | MoveTo x y | LineTo x y => Some (x, y)
             | ClosePath => None
             end) d.

(** The straight segments a path draws, in order: [L] draws from the
    current point, [Z] draws back to the start of the subpath, [M] moves
    without drawing.  [start] and [cur] are the start of the subpath and
    the current point, if there is one. *)
Fixpoint segments_from (start cur : option (Z * Z)) (d : list PathCmd)
    : list ((Z * Z) * (Z * Z)) :=
  match d with
  | [] => []
  | MoveTo x y :: rest => segments_from (Some (x, y)) (Some (x, y)) rest
  | LineTo x y :: rest =>
      match cur with
      | Some c => (c, (x, y)) :: segments_from start (Some (x, y)) rest
      | None => segments_from start (Some (x, y)) rest
      end
  | ClosePath :: rest =>
      match cur, start with
      | Some c, Some s0 => (c, s0) :: segments_from start start rest
      | _, _ => segments_from start start rest
      end
  end.

Definition segments (d : list PathCmd) : list ((Z * Z) * (Z * Z)) :=
  segments_from None None d.

(** The outline: the segments that have a length. *)
Definition outline (d : list PathCmd) : list ((Z * Z) * (Z * Z)) :=
  filter (λ sg, sg.1 ≠ sg.2) (segments d).

Definition in_box (box : Z * Z * Z * Z) (pt : Z * Z) : Prop :=
  let '(x0, y0, w, h) := box in
  x0 ≤ pt.1 ≤ x0 + w ∧ y0 ≤ pt.2 ≤ y0 + h.

Definition in_disc (cx cy r : Z) (pt : Z * Z) : Prop :=
  (pt.1 - cx) * (pt.1 - cx) + (pt.2 - cy) * (pt.2 - cy) ≤ r * r.

(** The mirror image of a point in the vertical line [x = axis]. *)
Definition mirror (axis : Z) (pt : Z * Z) : Z * Z := (2 * axis - pt.1, pt.2).

(** A segment, taken in either direction, is among [sgs]. *)
Definition drawn (sgs : list ((Z * Z) * (Z * Z))) (a b : Z * Z) : Prop :=
  (a, b) ∈ sgs ∨ (b, a) ∈ sgs.

End MavenIcon.

(** ** More relations between states of the AdSense component *)

Module AdSenseState.

Import AdSense.

(** The slot element, the observer and the fallback timeouts are the ones
    of the last committed render: the slot and the observer are there
    exactly when that render returned the container, and a pending
    fallback belongs to the current cleanup and holds the flags of that
    render. *)
Definition mirrors (configured : bool) (w : World) : Prop :=
  (adRef w = None ↔ configured = false ∨ (deps w).2 = true) ∧
  (monitor w = None ↔ configured = false ∨ (deps w).2 = true) ∧
  (∀ t l f, t ∈ timers w → kind t = Fallback l f →
            (l, f) = deps w ∧ ∃ m, monitor w = Some m ∧ timeout m = tid t).

(** Events after which a shown ad can be hidden: a status of ['error'] or
    ['unfilled'], and an iframe taken away or left without height. *)
Definition hides (e : Event) : bool :=
  match e with
  | SetAttribute name value =>
      String.eqb name STATUS_ATTR
      && (String.eqb value "error" || String.eqb value "unfilled")
  | SetIframe None => true
  | SetIframe (Some h) => negb (0 <? h)
  | _ => false
  end.

(** Events that write ['done'] to the status attribute. *)
Definition sets_done (e : Event) : bool :=
  match e with
  | SetAttribute name value =>
      String.eqb name STATUS_ATTR && String.eqb value "done"
  | _ => false
  end.

(** No load was ever reported: the flag is down, the status is not
    ['done'], no content check is queued. *)
Definition unloaded (w : World) : Prop :=
  adLoaded w = false ∧ getStatus w ≠ Some "done" ∧
  ∀ t, t ∈ timers w → kind t ≠ IframeCheck.

(** Lines 53-62: the observer the monitoring effect connects to the slot,
    with the id of the fallback timeout armed next to it. *)
Definition observer_of (id : nat) : Monitor :=
  {| observed := true; attributeFilter := [STATUS_ATTR]; timeout := id |}.

(** Line 41, [iframe && iframe.offsetHeight > 0]: the slot holds an
    iframe that has a height. *)
Definition has_content (w : World) : bool :=
  match adRef w ≫= iframe with
  | Some offsetHeight => 0 <? offsetHeight
  | None => false
  end.

(** The status attribute of the slot reads [s]. *)
Definition status_is (s : string) (w : World) : bool :=
  bool_decide (getStatus w = Some s).

(** A loaded ad that shows content. *)
Definition showing (w : World) : Prop :=
  adLoaded w = true ∧ adFailed w = false ∧
  ∃ h, adRef w ≫= iframe = Some h ∧ 0 < h.

End AdSenseState.

(** * Properties *)

Import AdSense.

(** ** The shape of the lesson records *)

Lemma maven_modules_shape :
  forallb (λ m, lesson_shape m.2 && maven_shape m.2) Content.maven_modules = true.
Proof. vm_compute. reflexivity. Qed.

Lemma spring_index_shape :
  forallb (λ m, lesson_shape m.2 && spring_shape m.2) Content.spring_index = true.
Proof. vm_compute. reflexivity. Qed.

Lemma forallb_elem_of {A} (f : A → bool) (l : list A) (x : A) :
  forallb f l = true → x ∈ l → f x = true.
Proof.
  intros Hall Hin. rewrite forallb_forall in Hall.
  apply Hall. by apply list_elem_of_In.
Qed.

(** C1, as the code has it: every lesson module exports an object with
    string fields [id], [title], [description] and [content]; a Spring
    lesson has a string [code] and an array [practiceQuestions] besides; a
    Maven lesson has neither of the two and carries [courseTitle] and
    [sectionTitle] instead. *)
Theorem lesson_records_shape (name : string) (o : JsValue) :
  (name, o) ∈ Content.tutorial_modules →
  lesson_shape o = true ∧
  (((name, o) ∈ Content.spring_index ∧ spring_shape o = true) ∨
   ((name, o) ∈ Content.maven_modules ∧ maven_shape o = true
    ∧ get "code" o = None ∧ get "practiceQuestions" o = None)).
Proof.
  unfold Content.tutorial_modules. rewrite elem_of_app.
  intros [Hm | Hs].
  - pose proof (forallb_elem_of _ _ _ maven_modules_shape Hm) as H.
    cbn beta in H. apply andb_true_iff in H as [Hl Hsh]. simpl in Hl, Hsh.
    split; [exact Hl |]. right. split; [exact Hm |]. split; [exact Hsh |].
    unfold maven_shape, has_field in Hsh.
    repeat (apply andb_true_iff in Hsh as [Hsh ?]).
    split.
    + destruct (get "code" o); [discriminate | reflexivity].
    + destruct (get "practiceQuestions" o); [discriminate | reflexivity].
  - pose proof (forallb_elem_of _ _ _ spring_index_shape Hs) as H.
    cbn beta in H. apply andb_true_iff in H as [Hl Hsh].
    split; [exact Hl |]. left. split; [exact Hs | exact Hsh].
Qed.

Lemma lesson_records_shape_witness :
  lesson_shape Content.springBean = true ∧
  lesson_shape Content.mavenWhy = true ∧
  get "code" Content.mavenWhy = None.
Proof.
  split; [| split].
  - apply (lesson_records_shape "springBean" Content.springBean).
    apply list_elem_of_lookup. exists 18%nat. reflexivity.
  - apply (lesson_records_shape "mavenWhy" Content.mavenWhy).
    apply list_elem_of_lookup. exists 10%nat. reflexivity.
  - reflexivity.
Defined.

(** C1 as the specification words it fails: the Maven introduction is a
    lesson module and has no [code] and no [practiceQuestions]. *)
Lemma maven_lesson_lacks_code :
  ¬ (∀ name o, (name, o) ∈ Content.tutorial_modules →
               content_record_shape o = true).
Proof.
  intros H.
  specialize (H "mavenIntroduction" Content.mavenIntroduction).
  assert (Hin : ("mavenIntroduction", Content.mavenIntroduction)
                  ∈ Content.tutorial_modules).
  { apply list_elem_of_lookup. exists 4%nat. reflexivity. }
  specialize (H Hin). vm_compute in H. discriminate H.
Qed.

(** ** The component: how state moves *)

Lemma evolves_refl w : evolves w w.
Proof. unfold evolves. tauto. Qed.

Lemma evolves_trans w1 w2 w3 : evolves w1 w2 → evolves w2 w3 → evolves w1 w3.
Proof.
  unfold evolves. intros (?&?&?&?&?&?) (?&?&?&?&?&?).
  repeat split; try congruence; auto.
Qed.

Ltac evolves_by_cases :=
  unfold evolves; repeat case_match; simpl; repeat split; auto.

Section ComponentFacts.

Variable isAdSenseConfigured : bool.
Variable props : Props.
Variable script_push : option string.

#[local] Abbreviation render := (render isAdSenseConfigured props).
#[local] Abbreviation view := (view isAdSenseConfigured props).
#[local] Abbreviation monitor_effect := (monitor_effect isAdSenseConfigured).
#[local] Abbreviation rerender := (rerender isAdSenseConfigured props).
#[local] Abbreviation commit := (commit isAdSenseConfigured props).
#[local] Abbreviation settle := (settle isAdSenseConfigured props).
#[local] Abbreviation step := (step isAdSenseConfigured props).
#[local] Abbreviation run := (run isAdSenseConfigured props).
#[local] Abbreviation push_call := (push_call script_push).
#[local] Abbreviation push_effect := (push_effect script_push).
#[local] Abbreviation push_body := (push_body script_push).
#[local] Abbreviation initial := (initial isAdSenseConfigured props).
#[local] Abbreviation mount := (mount isAdSenseConfigured props script_push).
#[local] Abbreviation reachable :=
  (reachable isAdSenseConfigured props script_push).

Lemma checkAdStatus_evolves w : evolves w (checkAdStatus w).
Proof. unfold checkAdStatus. evolves_by_cases. Qed.

Lemma run_timer_evolves k w : evolves w (run_timer k w).
Proof.
  destruct k; unfold run_timer, iframe_check, fallback; evolves_by_cases.
Qed.

Lemma clearTimeout_evolves id w : evolves w (clearTimeout id w).
Proof. evolves_by_cases. Qed.

Lemma cleanup_evolves w : evolves w (cleanup w).
Proof. unfold cleanup. evolves_by_cases. Qed.

Lemma monitor_effect_evolves l f w : evolves w (monitor_effect l f w).
Proof.
  unfold AdSense.monitor_effect.
  case_match; [evolves_by_cases |].
  pose proof (checkAdStatus_evolves w) as Hc.
  unfold evolves in *. simpl. tauto.
Qed.

Lemma rerender_evolves w : evolves w (rerender w).
Proof.
  unfold AdSense.rerender. case_match; [evolves_by_cases |].
  eapply evolves_trans; [| apply monitor_effect_evolves].
  eapply evolves_trans; [| apply cleanup_evolves].
  evolves_by_cases.
Qed.

Lemma commit_evolves fuel w : evolves w (commit fuel w).
Proof.
  revert w. induction fuel as [| fuel IH]; intros w; simpl.
  - case_match; apply evolves_refl.
  - case_match; [apply evolves_refl |].
    eapply evolves_trans; [apply rerender_evolves | apply IH].
Qed.

Lemma settle_evolves w : evolves w (settle w).
Proof. apply commit_evolves. Qed.

Lemma evolves_unmarked w w' :
  evolves w w' → adLoaded w' = false → adFailed w' = false →
  adLoaded w = false ∧ adFailed w = false.
Proof.
  intros (_ & _ & _ & _ & L & F) Hl Hf.
  destruct (adLoaded w), (adFailed w); auto;
    try (rewrite L in Hl by reflexivity; discriminate);
    try (rewrite F in Hf by reflexivity; discriminate).
Qed.

Lemma notify_evolves name w : evolves w (notify name w).
Proof.
  unfold notify. repeat case_match; auto using evolves_refl, checkAdStatus_evolves.
Qed.

(** *** Renders settle *)

Lemma monitor_effect_deps l f w : deps (monitor_effect l f w) = deps w.
Proof.
  unfold AdSense.monitor_effect, checkAdStatus.
  repeat case_match; reflexivity.
Qed.

Lemma cleanup_deps w : deps (cleanup w) = deps w.
Proof. unfold cleanup. case_match; reflexivity. Qed.

Lemma rerender_deps w : deps (rerender w) = (adLoaded w, adFailed w).
Proof.
  unfold AdSense.rerender. case_bool_decide as Hd; [exact Hd |].
  rewrite monitor_effect_deps, cleanup_deps. reflexivity.
Qed.

Lemma render_failed l : render l true = None.
Proof. unfold AdSense.render. by destruct isAdSenseConfigured. Qed.

Lemma monitor_effect_no_slot l f w :
  adRef w = None → monitor_effect l f w = with_monitor None w.
Proof.
  intros Hr. unfold AdSense.monitor_effect.
  rewrite bool_decide_eq_true_2 by exact Hr. reflexivity.
Qed.

(** Once failed, a render takes the slot away and the effect returns at
    its guard: the flags stay. *)
Lemma rerender_failed w :
  adFailed w = true →
  adLoaded (rerender w) = adLoaded w ∧ adFailed (rerender w) = true
  ∧ adRef (rerender w) = None.
Proof.
  intros Hf. unfold AdSense.rerender. rewrite Hf, render_failed. simpl.
  case_bool_decide; [by simpl |].
  rewrite monitor_effect_no_slot.
  - unfold cleanup. case_match; by simpl.
  - unfold cleanup. case_match; by simpl.
Qed.

Lemma settle_stable w : stable (settle w).
Proof.
  unfold stable, AdSense.settle. simpl.
  case_bool_decide as H0; [exact H0 |].
  pose proof (rerender_deps w) as D1.
  pose proof (rerender_evolves w) as (_ & _ & _ & _ & L1 & F1).
  set (r1 := rerender w) in *.
  case_bool_decide as H1; [exact H1 |].
  pose proof (rerender_deps r1) as D2.
  pose proof (rerender_evolves r1) as (_ & _ & _ & _ & L2 & F2).
  pose proof (rerender_failed r1) as K1.
  set (r2 := rerender r1) in *.
  case_bool_decide as H2; [exact H2 |].
  pose proof (rerender_deps r2) as D3.
  pose proof (rerender_failed r2) as K2.
  set (r3 := rerender r2) in *.
  case_bool_decide as H3; [exact H3 |].
  exfalso. apply H3. rewrite D3.
  rewrite D1 in H1. rewrite D2 in H2.
  destruct (adLoaded w), (adFailed w), (adLoaded r1) eqn:E1,
    (adFailed r1) eqn:E2, (adLoaded r2) eqn:E3, (adFailed r2) eqn:E4;
    try (exfalso; apply H1; reflexivity);
    try (exfalso; apply H2; reflexivity);
    try (specialize (L1 eq_refl)); try (specialize (F1 eq_refl));
    try (specialize (L2 eq_refl)); try (specialize (F2 eq_refl));
    try discriminate;
    try (destruct (K1 eq_refl) as (? & ? & _); congruence);
    try (destruct (K2 eq_refl) as (-> & -> & _); reflexivity).
Qed.

Lemma commit_stable_id fuel w : stable w → commit fuel w = w.
Proof.
  intros Hs. destruct fuel; simpl; by rewrite bool_decide_eq_true_2.
Qed.

(** *** Steps *)

Lemma step_evolves e w w' :
  step e w = Some w' →
  now w ≤ now w' ∧ store w' = store w ∧ pushes w' = pushes w ∧
  (adLoaded w = true → adLoaded w' = true) ∧
  (adFailed w = true → adFailed w' = true).
Proof.
  assert (Hgen : ∀ v, evolves w v → evolves w (settle v)).
  { intros v Hv. eapply evolves_trans; [exact Hv | apply commit_evolves]. }
  assert (Hout : ∀ v, evolves w v →
            now w ≤ now v ∧ store v = store w ∧ pushes v = pushes w ∧
            (adLoaded w = true → adLoaded v = true) ∧
            (adFailed w = true → adFailed v = true)).
  { intros v (Hn & ? & ? & ? & ? & ?). rewrite Hn. repeat split; auto; lia. }
  destruct e; simpl; intros Hstep.
  - case_match eqn:Hc; [| discriminate]. simplify_eq. simpl.
    apply andb_true_iff in Hc as [Hdt _]. repeat split; auto; lia.
  - repeat case_match; try discriminate. simplify_eq.
    apply Hout, Hgen.
    eapply evolves_trans; [apply clearTimeout_evolves | apply run_timer_evolves].
  - case_match; simplify_eq; [| apply Hout, evolves_refl].
    apply Hout, Hgen.
    eapply evolves_trans; [| apply notify_evolves]. evolves_by_cases.
  - case_match; simplify_eq; [| apply Hout, evolves_refl].
    apply Hout, Hgen.
    eapply evolves_trans; [| apply notify_evolves]. evolves_by_cases.
  - simplify_eq. apply Hout. evolves_by_cases.
  - simplify_eq. apply Hout, Hgen, rerender_evolves.
Qed.

Lemma run_evolves evs w w' :
  run evs w = Some w' →
  now w ≤ now w' ∧ store w' = store w ∧ pushes w' = pushes w ∧
  (adLoaded w = true → adLoaded w' = true) ∧
  (adFailed w = true → adFailed w' = true).
Proof.
  revert w. induction evs as [| e evs IH]; intros w; simpl.
  - intros [= <-]. repeat split; auto; lia.
  - destruct (step e w) as [v |] eqn:Hs; [| discriminate].
    intros Hr. apply step_evolves in Hs as (? & Hst & Hp & ? & ?).
    apply IH in Hr as (? & Hst' & Hp' & ? & ?).
    rewrite Hst', Hp'. repeat split; auto; lia.
Qed.

Lemma run_app evs1 evs2 w :
  run (evs1 ++ evs2) w = run evs1 w ≫= run evs2.
Proof.
  revert w. induction evs1 as [| e evs1 IH]; intros w; simpl; [done |].
  destruct (step e w); simpl; [apply IH | done].
Qed.

(** *** The timer queue stays well formed *)

Lemma wf_same w w' :
  now w' = now w → timers w' = timers w → next_timer w' = next_timer w →
  monitor w' = monitor w → wf w → wf w'.
Proof.
  intros Hn Ht Hx Hm [D T U M].
  split; rewrite ?Hn, ?Ht, ?Hx, ?Hm; assumption.
Qed.

Lemma wf_setTimeout k delay w :
  0 ≤ delay → wf w → wf (setTimeout k delay w).1.
Proof.
  intros Hd [D T U M]. split; simpl.
  - intros t [Ht | ->%list_elem_of_singleton]%elem_of_app; simpl; [auto | lia].
  - intros t [Ht | ->%list_elem_of_singleton]%elem_of_app; simpl;
      [apply T in Ht |]; lia.
  - intros t t' [Ht | ->%list_elem_of_singleton]%elem_of_app
      [Ht' | ->%list_elem_of_singleton]%elem_of_app; simpl; intros E; auto.
    + apply T in Ht. lia.
    + apply T in Ht'. lia.
  - intros m Hm. destruct (M m Hm) as (F & O & L & K).
    split; [exact F |]. split; [exact O |]. split; [lia |].
    intros t [Ht | ->%list_elem_of_singleton]%elem_of_app; simpl; [auto | lia].
Qed.

Lemma wf_clearTimeout id w : wf w → wf (clearTimeout id w).
Proof.
  intros [D T U M]. split; simpl.
  - intros t [_ Ht]%list_elem_of_filter. auto.
  - intros t [_ Ht]%list_elem_of_filter. auto.
  - intros t t' [_ Ht]%list_elem_of_filter [_ Ht']%list_elem_of_filter. auto.
  - intros m Hm. destruct (M m Hm) as (F & O & L & K).
    repeat split; auto.
    intros t [_ Ht]%list_elem_of_filter. auto.
Qed.

Lemma wf_no_monitor w : wf w → wf (with_monitor None w).
Proof.
  intros [D T U M]. split; simpl; auto. intros m [=].
Qed.

Lemma wf_checkAdStatus w : wf w → wf (checkAdStatus w).
Proof.
  intros Hw. unfold checkAdStatus. repeat case_match; auto.
  - apply wf_setTimeout; [lia |]. by eapply wf_same; [.. | exact Hw].
  - by eapply wf_same; [.. | exact Hw].
Qed.

Lemma wf_run_timer k w : wf w → wf (run_timer k w).
Proof.
  intros Hw. destruct k; unfold run_timer, iframe_check, fallback;
    repeat case_match; auto; by eapply wf_same; [.. | exact Hw].
Qed.

Lemma wf_cleanup w : wf w → wf (cleanup w).
Proof.
  intros Hw. unfold cleanup. case_match; auto.
  apply wf_no_monitor, wf_clearTimeout, Hw.
Qed.

Lemma checkAdStatus_adRef w : adRef (checkAdStatus w) = adRef w.
Proof. unfold checkAdStatus. repeat case_match; reflexivity. Qed.

Lemma checkAdStatus_deps w : deps (checkAdStatus w) = deps w.
Proof. unfold checkAdStatus. repeat case_match; reflexivity. Qed.

Lemma wf_monitor_effect l f w : wf w → wf (monitor_effect l f w).
Proof.
  intros Hw. unfold AdSense.monitor_effect.
  case_match eqn:Hg; [by apply wf_no_monitor |].
  apply orb_false_iff in Hg as [Hslot _].
  apply bool_decide_eq_false in Hslot.
  pose proof (wf_checkAdStatus w Hw) as Hc.
  set (w1 := checkAdStatus w) in *.
  pose proof (wf_setTimeout (Fallback l f) 5000 w1 ltac:(lia) Hc) as [D T U M].
  destruct Hc as [_ T1 _ _].
  split; auto. simpl. intros m [= <-]. simpl.
  repeat split; [| lia |].
  - apply bool_decide_eq_true. subst w1. by rewrite checkAdStatus_adRef.
  - intros t [Ht | ->%list_elem_of_singleton]%elem_of_app; simpl.
    + apply T1 in Ht. lia.
    + discriminate.
Qed.

Lemma wf_rerender w : wf w → wf (rerender w).
Proof.
  intros Hw. unfold AdSense.rerender.
  case_match; [by eapply wf_same; [.. | exact Hw] |].
  apply wf_monitor_effect, wf_cleanup.
  by eapply wf_same; [.. | exact Hw].
Qed.

Lemma wf_commit fuel w : wf w → wf (commit fuel w).
Proof.
  revert w. induction fuel as [| fuel IH]; intros w Hw; simpl;
    case_match; auto using wf_rerender.
Qed.

Lemma wf_notify name w : wf w → wf (notify name w).
Proof.
  intros Hw. unfold notify. repeat case_match; auto using wf_checkAdStatus.
Qed.

Lemma wf_step e w w' : wf w → step e w = Some w' → wf w'.
Proof.
  intros Hw. destruct e; simpl; intros Hs.
  - case_match eqn:Hc; [| discriminate]. simplify_eq.
    apply andb_true_iff in Hc as [_ Hall].
    rewrite forallb_forall in Hall.
    destruct Hw as [D T U M]. split; simpl; auto.
    intros t Ht. apply list_elem_of_In, Hall in Ht. lia.
  - repeat case_match; try discriminate. simplify_eq.
    apply wf_commit, wf_run_timer, wf_clearTimeout, Hw.
  - case_match; simplify_eq; [| exact Hw].
    apply wf_commit, wf_notify. by eapply wf_same; [.. | exact Hw].
  - case_match; simplify_eq; [| exact Hw].
    apply wf_commit, wf_notify. by eapply wf_same; [.. | exact Hw].
  - simplify_eq. by eapply wf_same; [.. | exact Hw].
  - simplify_eq. apply wf_commit, wf_rerender, Hw.
Qed.

Lemma wf_run evs w w' : wf w → run evs w = Some w' → wf w'.
Proof.
  revert w. induction evs as [| e evs IH]; intros w Hw; simpl.
  - by intros [= <-].
  - destruct (step e w) as [v |] eqn:Hs; [| discriminate].
    apply IH. eapply wf_step; eauto.
Qed.

Lemma stable_step e w w' : stable w → step e w = Some w' → stable w'.
Proof.
  intros Hs. destruct e; simpl; intros Hstep;
    repeat case_match; simplify_eq; auto using settle_stable.
Qed.

(** *** The first effect *)

Ltac unfold_push :=
  unfold AdSense.push_effect, try_catch, AdSense.push_body,
    AdSense.push_call, mbind, Js_bind, current, lift, mret, Js_ret, throw.

Lemma push_effect_normal w : ∃ w', push_effect w = (w', Normal tt).
Proof.
  unfold_push. repeat case_match; simplify_eq; eauto.
Qed.

Lemma push_effect_frame w w' c :
  push_effect w = (w', c) →
  now w' = now w ∧ deps w' = deps w ∧ adRef w' = adRef w ∧
  monitor w' = monitor w ∧ timers w' = timers w ∧
  next_timer w' = next_timer w ∧ adLoaded w' = adLoaded w ∧
  (adFailed w = true → adFailed w' = true) ∧
  (pushes w ≤ pushes w' ≤ S (pushes w))%nat ∧
  (∀ k, k ≠ ADSBYGOOGLE → store w' !! k = store w !! k).
Proof.
  unfold_push.
  repeat case_match; simplify_eq; simpl; intros; simplify_eq; simpl;
    repeat split; auto; try lia;
    intros k Hk; rewrite ?lookup_insert_ne by congruence; reflexivity.
Qed.

Lemma push_effect_pushed w w' c :
  push_effect w = (w', c) → pushes w' ≠ pushes w →
  ∃ el q, adRef w = Some el ∧ store w !! ADSBYGOOGLE = Some q ∧
          truthy q = true ∧ hasAttribute STATUS_ATTR el = false.
Proof.
  unfold_push.
  destruct (adRef w) as [el |] eqn:Hr;
    destruct (store w !! ADSBYGOOGLE) as [q |] eqn:Hq; simpl;
    try (intros; simplify_eq; congruence).
  destruct (truthy q) eqn:Ht, (hasAttribute STATUS_ATTR el) eqn:Ha; simpl;
    try (intros; simplify_eq; congruence).
  intros _ _. by exists el, q.
Qed.

Lemma push_effect_array w el items :
  adRef w = Some el → store w !! ADSBYGOOGLE = Some (VArr items) →
  hasAttribute STATUS_ATTR el = false →
  ∃ w', push_effect w = (w', Normal tt) ∧ pushes w' = S (pushes w) ∧
        adFailed w' = adFailed w ∧
        store w' !! ADSBYGOOGLE = Some (VArr (items ++ [VObj []])).
Proof.
  intros Hr Hq Ha. unfold_push. rewrite Hr, Hq, Ha. simpl.
  eexists. split; [reflexivity |]. simpl.
  by rewrite lookup_insert_eq.
Qed.

Lemma push_effect_caught w w1 e :
  push_body w = (w1, Throw e) →
  push_effect w =
    (setAdFailed true (console_error ("AdSense error: " ++ e) w1), Normal tt).
Proof.
  intros Hb. unfold AdSense.push_effect, try_catch. rewrite Hb. reflexivity.
Qed.

(** *** Mounting *)

Lemma initial_slot t0 st0 s0 :
  adRef (initial t0 st0 s0) = None ↔ isAdSenseConfigured = false.
Proof.
  unfold AdSense.initial, AdSense.render. simpl.
  destruct isAdSenseConfigured, s0; simpl; split; congruence.
Qed.

Lemma wf_initial t0 st0 s0 : wf (initial t0 st0 s0).
Proof.
  split; simpl.
  - intros t Ht. by apply elem_of_nil in Ht.
  - intros t Ht. by apply elem_of_nil in Ht.
  - intros t t' Ht. by apply elem_of_nil in Ht.
  - intros m [=].
Qed.

Lemma mount_total t0 st0 s0 :
  ∃ w1, push_effect (initial t0 st0 s0) = (w1, Normal tt) ∧
        mount t0 st0 s0 = Some (settle (monitor_effect false false w1)).
Proof.
  destruct (push_effect_normal (initial t0 st0 s0)) as [w1 H1].
  exists w1. split; [exact H1 |]. unfold AdSense.mount. by rewrite H1.
Qed.

Lemma wf_mount t0 st0 s0 w : mount t0 st0 s0 = Some w → wf w.
Proof.
  destruct (mount_total t0 st0 s0) as (w1 & H1 & Hm). rewrite Hm.
  intros [= <-]. apply wf_commit, wf_monitor_effect.
  apply push_effect_frame in H1 as (Hn & _ & _ & Hmo & Ht & Hx & _).
  eapply wf_same; [exact Hn | exact Ht | exact Hx | exact Hmo |].
  apply wf_initial.
Qed.

Lemma stable_mount t0 st0 s0 w : mount t0 st0 s0 = Some w → stable w.
Proof.
  destruct (mount_total t0 st0 s0) as (w1 & H1 & Hm). rewrite Hm.
  intros [= <-]. apply settle_stable.
Qed.

Lemma reachable_wf w : reachable w → wf w.
Proof.
  intros (t0 & st0 & s0 & w0 & evs & Hm & Hr).
  eapply wf_run; [| exact Hr]. eapply wf_mount, Hm.
Qed.

Lemma stable_run evs w w' : stable w → run evs w = Some w' → stable w'.
Proof.
  revert w. induction evs as [| e evs IH]; intros w Hs; simpl.
  - by intros [= <-].
  - destruct (step e w) as [v |] eqn:Hst; [| discriminate].
    apply IH. eapply stable_step; eauto.
Qed.

Lemma reachable_stable w : reachable w → stable w.
Proof.
  intros (t0 & st0 & s0 & w0 & evs & Hm & Hr).
  eapply stable_run; [| exact Hr]. eapply stable_mount, Hm.
Qed.

Lemma reachable_step e w w' : reachable w → step e w = Some w' → reachable w'.
Proof.
  intros (t0 & st0 & s0 & w0 & evs & Hm & Hr) Hs.
  exists t0, st0, s0, w0, (evs ++ [e])%list. split; [exact Hm |].
  rewrite run_app, Hr. simpl. by rewrite Hs.
Qed.

(** *** What is rendered *)

(** C2: a render returns nothing when AdSense is not configured or the
    failed flag is set, and the ad container in every other case. *)
Theorem render_nothing_or_container (w : World) :
  (isAdSenseConfigured = false ∨ adFailed w = true → view w = None) ∧
  (isAdSenseConfigured = true → adFailed w = false →
   view w = Some (ad_container props (adLoaded w) false)).
Proof.
  unfold AdSense.view, AdSense.render. split.
  - intros [-> | ->]; [reflexivity |]. by destruct isAdSenseConfigured.
  - intros -> ->. reflexivity.
Qed.

(** C8: both flags start false, no step clears [adFailed], and from a
    state with [adFailed] set every later render returns nothing,
    whatever status changes, timeouts and renders come in between. *)
Theorem failed_is_absorbing (t0 : Z) (st0 : gmap string JsValue)
    (s0 : option string) :
  adLoaded (initial t0 st0 s0) = false ∧
  adFailed (initial t0 st0 s0) = false ∧
  (∀ e w w', adFailed w = true → step e w = Some w' → adFailed w' = true) ∧
  (∀ evs w w', adFailed w = true → run evs w = Some w' →
               adFailed w' = true ∧ view w' = None).
Proof.
  split; [reflexivity |]. split; [reflexivity |]. split.
  - intros e w w' Hf Hs. apply step_evolves in Hs as (_ & _ & _ & _ & F).
    auto.
  - intros evs w w' Hf Hr. apply run_evolves in Hr as (_ & _ & _ & _ & F).
    split; [auto |]. unfold AdSense.view. rewrite (F Hf). apply render_failed.
Qed.

(** *** The push on mount *)

(** C7: the mount never lets an exception out; it calls [push] at most
    once and no later step calls it again; a call happened only with the
    slot element there, [window.adsbygoogle] defined (and truthy) and no
    status attribute on the element yet; and when the pushing code
    throws, the error is logged, the component is marked failed and
    renders nothing. *)
Theorem push_once_on_mount (t0 : Z) (st0 : gmap string JsValue)
    (s0 : option string) :
  ∃ w1 w,
    push_effect (initial t0 st0 s0) = (w1, Normal tt) ∧
    mount t0 st0 s0 = Some w ∧
    (pushes w ≤ 1)%nat ∧
    (∀ evs w', run evs w = Some w' → pushes w' = pushes w) ∧
    (pushes w = 1%nat →
     ∃ el q, adRef (initial t0 st0 s0) = Some el ∧
             st0 !! ADSBYGOOGLE = Some q ∧ truthy q = true ∧
             hasAttribute STATUS_ATTR el = false) ∧
    (∀ el items, adRef (initial t0 st0 s0) = Some el →
                 st0 !! ADSBYGOOGLE = Some (VArr items) →
                 hasAttribute STATUS_ATTR el = false →
                 pushes w = 1%nat ∧
                 store w !! ADSBYGOOGLE = Some (VArr (items ++ [VObj []]))) ∧
    (∀ w2 err, push_body (initial t0 st0 s0) = (w2, Throw err) →
               console w = (console w2 ++ [("AdSense error: " ++ err)%string])%list ∧
               adFailed w = true ∧ view w = None).
Proof.
  destruct (mount_total t0 st0 s0) as (w1 & H1 & Hm).
  exists w1, (settle (monitor_effect false false w1)).
  split; [exact H1 |]. split; [exact Hm |].
  assert (Hev : evolves w1 (settle (monitor_effect false false w1))).
  { eapply evolves_trans; [apply monitor_effect_evolves | apply commit_evolves]. }
  destruct Hev as (_ & Hst & Hp & Hco & _ & Hf).
  pose proof (push_effect_frame _ _ _ H1) as (_ & _ & _ & _ & _ & _ & _ & _ & Hle & _).
  simpl in Hle. rewrite Hp.
  split; [lia |]. split; [| split; [| split]].
  - intros evs w' Hr. apply run_evolves in Hr as (_ & _ & Hp' & _).
    by rewrite Hp'.
  - intros Hone. apply (push_effect_pushed _ _ _ H1). simpl. lia.
  - intros el items Hr Hq Ha.
    destruct (push_effect_array _ el items Hr Hq Ha) as (w' & H1' & Hp1 & _ & Hs1).
    rewrite H1 in H1'. simplify_eq. rewrite Hst. split; [exact Hp1 | exact Hs1].
  - intros w2 err Hb. apply push_effect_caught in Hb.
    rewrite H1 in Hb. simplify_eq. rewrite Hco. simpl.
    split; [reflexivity |]. split; [by apply Hf |].
    unfold AdSense.view. rewrite Hf by reflexivity. apply render_failed.
Qed.

(** *** The lesson records are left alone *)

Lemma lesson_bindings_distinct : NoDup (Content.tutorial_modules.*1).
Proof. apply (bool_decide_unpack _). vm_compute. exact I. Qed.

Lemma lesson_binding_not_queue name lesson :
  (name, lesson) ∈ Content.tutorial_modules → name ≠ ADSBYGOOGLE.
Proof.
  intros Hin ->.
  assert (Hn : ADSBYGOOGLE ∉ Content.tutorial_modules.*1).
  { apply (bool_decide_unpack _). vm_compute. exact I. }
  apply Hn, list_elem_of_fmap. by exists (ADSBYGOOGLE, lesson).
Qed.

Lemma page_store_lesson queue name lesson :
  (name, lesson) ∈ Content.tutorial_modules →
  page_store queue !! name = Some lesson.
Proof.
  intros Hin.
  assert (Hm : module_store !! name = Some lesson).
  { apply elem_of_list_to_map_1; [apply lesson_bindings_distinct | exact Hin]. }
  destruct queue as [q |]; unfold page_store; [| exact Hm].
  rewrite lookup_insert_ne; [exact Hm |].
  apply not_eq_sym. eapply lesson_binding_not_queue, Hin.
Qed.

(** C5: every lesson object in the page is, after the mount and after
    any run of the component, the object its module exported; the one
    write to the store, the push of the first effect, goes to
    [window.adsbygoogle]. *)
Theorem lessons_never_mutated (t0 : Z) (queue : option JsValue)
    (s0 : option string) (w0 w : World) (evs : list Event)
    (name : string) (lesson : JsValue) :
  (name, lesson) ∈ Content.tutorial_modules →
  mount t0 (page_store queue) s0 = Some w0 →
  run evs w0 = Some w →
  page_store queue !! name = Some lesson ∧
  store w0 !! name = Some lesson ∧
  store w !! name = Some lesson.
Proof.
  intros Hin Hm Hr.
  pose proof (page_store_lesson queue name lesson Hin) as H0.
  assert (Hw0 : store w0 !! name = Some lesson).
  { destruct (mount_total t0 (page_store queue) s0) as (w1 & H1 & Hm').
    rewrite Hm in Hm'. simplify_eq.
    assert (Hev : evolves w1 (settle (monitor_effect false false w1))).
    { eapply evolves_trans; [apply monitor_effect_evolves | apply commit_evolves]. }
    destruct Hev as (_ & -> & _).
    apply push_effect_frame in H1 as (_ & _ & _ & _ & _ & _ & _ & _ & _ & Hs).
    rewrite Hs; [exact H0 |]. eapply lesson_binding_not_queue, Hin. }
  split; [exact H0 |]. split; [exact Hw0 |].
  apply run_evolves in Hr as (_ & -> & _). exact Hw0.
Qed.

(** *** Content checks stay pending until they run *)

Lemma keeps_trans w1 w2 w3 :
  keeps_checks w1 w2 → keeps_checks w2 w3 → keeps_checks w1 w3.
Proof. unfold keeps_checks. eauto. Qed.

Lemma keeps_same w w' : timers w' = timers w → keeps_checks w w'.
Proof. unfold keeps_checks. intros ->. auto. Qed.

Lemma keeps_setTimeout k delay w : keeps_checks w (setTimeout k delay w).1.
Proof. intros t _ Ht. simpl. apply elem_of_app. by left. Qed.

Lemma keeps_checkAdStatus w : keeps_checks w (checkAdStatus w).
Proof.
  unfold checkAdStatus. repeat case_match; try by apply keeps_same.
  eapply keeps_trans; [| apply keeps_setTimeout]. by apply keeps_same.
Qed.

Lemma keeps_run_timer k w : keeps_checks w (run_timer k w).
Proof.
  destruct k; unfold run_timer, iframe_check, fallback;
    repeat case_match; by apply keeps_same.
Qed.

Lemma keeps_cleanup w : wf w → keeps_checks w (cleanup w).
Proof.
  intros [_ _ _ M]. unfold cleanup.
  destruct (monitor w) as [m |] eqn:Hm; [| by apply keeps_same].
  destruct (M m eq_refl) as (_ & _ & _ & K).
  intros t Hk Ht. simpl. apply list_elem_of_filter. split; [| exact Ht].
  intros E. by apply (K t Ht E).
Qed.

Lemma keeps_monitor_effect l f w : keeps_checks w (monitor_effect l f w).
Proof.
  unfold AdSense.monitor_effect. case_match; [by apply keeps_same |].
  eapply keeps_trans; [apply keeps_checkAdStatus |].
  eapply keeps_trans; [apply keeps_setTimeout |]. by apply keeps_same.
Qed.

Lemma keeps_rerender w : wf w → keeps_checks w (rerender w).
Proof.
  intros Hw. unfold AdSense.rerender. case_match; [by apply keeps_same |].
  eapply keeps_trans; [| apply keeps_monitor_effect].
  eapply keeps_trans; [| apply keeps_cleanup; by eapply wf_same; [.. | exact Hw]].
  by apply keeps_same.
Qed.

Lemma keeps_commit fuel w : wf w → keeps_checks w (commit fuel w).
Proof.
  revert w. induction fuel as [| fuel IH]; intros w Hw; simpl;
    case_match; try by apply keeps_same.
  eapply keeps_trans; [apply keeps_rerender, Hw | apply IH, wf_rerender, Hw].
Qed.

Lemma keeps_notify name w : keeps_checks w (notify name w).
Proof.
  unfold notify. repeat case_match;
    auto using keeps_checkAdStatus; by apply keeps_same.
Qed.

Lemma earliest_elem ts t : earliest ts = Some t → t ∈ ts.
Proof.
  revert t. induction ts as [| a ts IH]; intros t; simpl; [discriminate |].
  destruct (earliest ts) as [t' |].
  - case_match; intros [= <-]; [right; by apply IH | left].
  - intros [= <-]. left.
Qed.

Lemma check_pending_step e w w' t :
  wf w → t ∈ timers w → kind t = IframeCheck → step e w = Some w' →
  (t ∈ timers w' ∧ now w' ≤ due t) ∨
  (e = Fire ∧ now w = due t ∧
   w' = settle (iframe_check (clearTimeout (tid t) w))).
Proof.
  intros Hw Ht Hk Hs.
  pose proof (wf_due w Hw t Ht) as Hdue.
  assert (Hkeep : ∀ v, wf v → t ∈ timers v → now v = now w →
                       w' = settle v → t ∈ timers w' ∧ now w' ≤ due t).
  { intros v Hv Htv Hn ->. unfold AdSense.settle. split.
    - by apply (keeps_commit 3 v Hv t Hk).
    - destruct (commit_evolves 3 v) as (Hnow & _). rewrite Hnow. lia. }
  destruct e; simpl in Hs.
  - case_match eqn:Hc; [| discriminate]. simplify_eq. left.
    split; [exact Ht |]. simpl.
    apply andb_true_iff in Hc as [_ Hall]. rewrite forallb_forall in Hall.
    apply list_elem_of_In, Hall in Ht. lia.
  - destruct (earliest (timers w)) as [t1 |] eqn:He; [| discriminate].
    case_match eqn:Hd; [| discriminate]. simplify_eq.
    pose proof (earliest_elem _ _ He) as Ht1.
    destruct (decide (tid t1 = tid t)) as [E | N].
    + assert (t1 = t) as -> by (eapply wf_uniq; eauto).
      right. rewrite Hk. simpl. repeat split. lia.
    + left. eapply Hkeep; [| | | reflexivity].
      * apply wf_run_timer, wf_clearTimeout, Hw.
      * apply (keeps_run_timer _ _ t Hk). simpl.
        apply list_elem_of_filter. split; [congruence | exact Ht].
      * by destruct (run_timer_evolves (kind t1) (clearTimeout (tid t1) w))
          as (-> & _).
  - destruct (adRef w) as [el |]; simplify_eq; [| by left].
    left. eapply Hkeep; [| | | reflexivity].
    + apply wf_notify. by eapply wf_same; [.. | exact Hw].
    + by apply (keeps_notify _ _ t Hk).
    + by destruct (notify_evolves name
                     (with_adRef (Some (setAttribute name value el)) w))
        as (-> & _).
  - destruct (adRef w) as [el |]; simplify_eq; [| by left].
    left. eapply Hkeep; [| | | reflexivity].
    + apply wf_notify. by eapply wf_same; [.. | exact Hw].
    + by apply (keeps_notify _ _ t Hk).
    + by destruct (notify_evolves name
                     (with_adRef (Some (removeAttribute name el)) w))
        as (-> & _).
  - simplify_eq. by left.
  - simplify_eq. left. eapply Hkeep; [| | | reflexivity].
    + apply wf_rerender, Hw.
    + by apply (keeps_rerender w Hw t Hk).
    + by destruct (rerender_evolves w) as (-> & _).
Qed.

(** *** The status check *)

Lemma checkAdStatus_done w :
  getStatus w = Some "done" →
  checkAdStatus w = (setTimeout IframeCheck 500 (setAdLoaded true w)).1.
Proof. intros Hg. unfold checkAdStatus. by rewrite Hg. Qed.

Lemma checkAdStatus_failed w :
  getStatus w = Some "error" ∨ getStatus w = Some "unfilled" →
  checkAdStatus w = setAdFailed true w.
Proof. intros [Hg | Hg]; unfold checkAdStatus; by rewrite Hg. Qed.

Lemma checkAdStatus_other w :
  getStatus w ≠ Some "done" → getStatus w ≠ Some "error" →
  getStatus w ≠ Some "unfilled" → checkAdStatus w = w.
Proof.
  intros Hd He Hu. unfold checkAdStatus.
  destruct (getStatus w) as [s |]; [| reflexivity].
  destruct (String.eqb_spec s "done") as [-> | _]; [done |].
  destruct (String.eqb_spec s "error") as [-> | _]; [done |].
  destruct (String.eqb_spec s "unfilled") as [-> | _]; [done |].
  reflexivity.
Qed.

(** A check that marks nothing changes nothing. *)
Lemma checkAdStatus_quiet w :
  adLoaded (checkAdStatus w) = false → adFailed (checkAdStatus w) = false →
  checkAdStatus w = w.
Proof.
  unfold checkAdStatus. repeat case_match; simpl; congruence.
Qed.

Lemma getStatus_setAttribute_ne w el name v :
  name ≠ STATUS_ATTR →
  getStatus (with_adRef (Some (setAttribute name v el)) w)
  = getAttribute STATUS_ATTR el.
Proof.
  intros Hn. unfold getStatus, getAttribute. simpl.
  by rewrite lookup_insert_ne.
Qed.

Lemma getStatus_removeAttribute_ne w el name :
  name ≠ STATUS_ATTR →
  getStatus (with_adRef (Some (removeAttribute name el)) w)
  = getAttribute STATUS_ATTR el.
Proof.
  intros Hn. unfold getStatus, getAttribute. simpl.
  by rewrite lookup_delete_ne.
Qed.

Lemma notify_other name w :
  wf w → name ≠ STATUS_ATTR → notify name w = w.
Proof.
  intros Hw Hn. unfold notify.
  destruct (monitor w) as [m |] eqn:Hm; [| reflexivity].
  destruct (wf_monitor w Hw m Hm) as (-> & _).
  rewrite bool_decide_eq_false_2, andb_false_r; [reflexivity |].
  by intros ->%list_elem_of_singleton.
Qed.

Lemma notify_status w m :
  wf w → monitor w = Some m → notify STATUS_ATTR w = checkAdStatus w.
Proof.
  intros Hw Hm. unfold notify. rewrite Hm.
  destruct (wf_monitor w Hw m Hm) as (-> & -> & _).
  rewrite bool_decide_eq_true_2; [reflexivity |]. by apply list_elem_of_singleton.
Qed.

(** C6: what each value of the status attribute does.  ['done'] marks
    the ad loaded and queues the content check for 500 ms later; the
    check, which stays queued until the clock is at its time and it runs,
    marks the ad loaded again when the slot's iframe has a positive
    height and failed otherwise; ['error'] and ['unfilled'] mark it
    failed; any other value, or none, changes nothing.  A change of the
    attribute while the observer is connected runs this check on the
    new value. *)
Theorem status_values_decide (w : World) :
  (getStatus w = Some "done" →
   adLoaded (checkAdStatus w) = true ∧
   adFailed (checkAdStatus w) = adFailed w ∧
   timers (checkAdStatus w)
   = (timers w ++ [ {| tid := next_timer w;
                       due := now w + 500;
                       kind := IframeCheck |} ])%list) ∧
  (getStatus w = Some "error" ∨ getStatus w = Some "unfilled" →
   checkAdStatus w = setAdFailed true w) ∧
  (getStatus w ≠ Some "done" → getStatus w ≠ Some "error" →
   getStatus w ≠ Some "unfilled" → checkAdStatus w = w) ∧
  (∀ h, adRef w ≫= iframe = Some h → 0 < h →
        run_timer IframeCheck w = setAdLoaded true w) ∧
  ((∀ h, adRef w ≫= iframe = Some h → h ≤ 0) →
   run_timer IframeCheck w = setAdFailed true w) ∧
  (reachable w →
   ∀ t, t ∈ timers w → kind t = IframeCheck →
        now w ≤ due t ∧
        ∀ e w', step e w = Some w' →
                (t ∈ timers w' ∧ now w' ≤ due t) ∨
                (e = Fire ∧ now w = due t ∧
                 w' = settle (run_timer IframeCheck
                                (clearTimeout (tid t) w)))) ∧
  (reachable w →
   ∀ el m v, adRef w = Some el → monitor w = Some m →
             step (SetAttribute STATUS_ATTR v) w
             = Some (settle (checkAdStatus
                               (with_adRef
                                  (Some (setAttribute STATUS_ATTR v el)) w)))).
Proof.
  split; [| split; [| split; [| split; [| split; [| split]]]]].
  - intros Hg. rewrite (checkAdStatus_done w Hg). by simpl.
  - apply checkAdStatus_failed.
  - apply checkAdStatus_other.
  - intros h Hi Hh. simpl. unfold iframe_check. rewrite Hi.
    by rewrite (proj2 (Z.ltb_lt 0 h) Hh).
  - intros Hall. simpl. unfold iframe_check.
    destruct (adRef w ≫= iframe) as [h |]; [| reflexivity].
    specialize (Hall h eq_refl).
    by rewrite (proj2 (Z.ltb_ge 0 h) Hall).
  - intros Hre t Ht Hk. pose proof (reachable_wf w Hre) as Hw.
    split; [by apply (wf_due w Hw) |].
    intros e w' Hs. by apply (check_pending_step e w w' t Hw Ht Hk).
  - intros Hre el m v Hr Hm. pose proof (reachable_wf w Hre) as Hw.
    simpl. rewrite Hr. f_equal. f_equal.
    eapply notify_status; [| exact Hm]. by eapply wf_same; [.. | exact Hw].
Qed.

(** *** The five-second fallback *)

Section Configured.

Hypothesis configured : isAdSenseConfigured = true.

Lemma render_unmarked : render false false = Some (ad_container props false false).
Proof. unfold AdSense.render. by rewrite configured. Qed.

Lemma armed_stable t0 w :
  armed t0 w → adLoaded w = false → adFailed w = false → stable w.
Proof. intros (Hd & _) Hl Hf. unfold stable. by rewrite Hd, Hl, Hf. Qed.

Lemma settle_unmarked v :
  deps v = (false, false) →
  adLoaded (settle v) = false → adFailed (settle v) = false →
  adLoaded v = false ∧ adFailed v = false ∧ settle v = v.
Proof.
  intros Hd Hl Hf.
  destruct (evolves_unmarked _ _ (settle_evolves v) Hl Hf) as [Hlv Hfv].
  repeat split; auto. apply commit_stable_id.
  unfold stable. by rewrite Hd, Hlv, Hfv.
Qed.

Lemma armed_mount t0 st0 s0 w :
  mount t0 st0 s0 = Some w →
  adLoaded w = false → adFailed w = false → armed t0 w.
Proof.
  destruct (mount_total t0 st0 s0) as (w1 & H1 & Hm). rewrite Hm.
  intros [= <-] Hl Hf.
  apply push_effect_frame in H1
    as (Hn & Hd & Hr & Hmo & Ht & Hx & Hl1 & _).
  assert (Hdv : deps (monitor_effect false false w1) = (false, false)).
  { rewrite monitor_effect_deps, Hd. reflexivity. }
  destruct (settle_unmarked _ Hdv Hl Hf) as (Hlv & Hfv & ->).
  assert (Hslot : ∃ el, adRef w1 = Some el).
  { rewrite Hr. destruct (adRef (initial t0 st0 s0)) eqn:E; [eauto |].
    apply initial_slot in E. congruence. }
  destruct Hslot as [el Hel].
  revert Hlv Hfv. unfold AdSense.monitor_effect.
  rewrite Hel, configured. simpl.
  intros Hlv Hfv.
  rewrite (checkAdStatus_quiet w1 Hlv Hfv) in *.
  split; [simpl; by rewrite Hd |]. split; [simpl; eauto |].
  exists (next_timer w1). simpl.
  rewrite bool_decide_eq_true_2 by (by rewrite Hel).
  split; [reflexivity |]. rewrite Ht, Hn. simpl.
  split; [reflexivity | lia].
Qed.

Lemma armed_step t0 e w w' :
  armed t0 w → step e w = Some w' →
  adLoaded w' = false → adFailed w' = false → armed t0 w'.
Proof.
  intros Ha Hs Hl' Hf'.
  pose proof (step_evolves e w w' Hs) as (_ & _ & _ & L & F).
  assert (Hl : adLoaded w = false)
    by (destruct (adLoaded w); [by rewrite L in Hl' | done]).
  assert (Hf : adFailed w = false)
    by (destruct (adFailed w); [by rewrite F in Hf' | done]).
  clear L F.
  destruct Ha as (Hd & [el Hel] & id & Hm & Ht & Hn).
  assert (Hattr : ∀ name el',
            w' = settle (notify name (with_adRef (Some el') w)) →
            armed t0 w').
  { intros name el' Hw'. unfold notify in Hw'. simpl in Hw'.
    rewrite Hm in Hw'. simpl in Hw'. subst w'.
    case_bool_decide.
    - assert (Hdc : deps (checkAdStatus (with_adRef (Some el') w))
                    = (false, false))
        by (by rewrite checkAdStatus_deps).
      destruct (settle_unmarked _ Hdc Hl' Hf') as (Hl1 & Hf1 & ->).
      rewrite (checkAdStatus_quiet _ Hl1 Hf1).
      split; [exact Hd |]. split; [simpl; eauto |]. by exists id.
    - destruct (settle_unmarked (with_adRef (Some el') w) Hd Hl' Hf')
        as (_ & _ & ->).
      split; [exact Hd |]. split; [simpl; eauto |]. by exists id. }
  destruct e; simpl in Hs.
  - case_match eqn:Hc; [| discriminate]. injection Hs as <-.
    apply andb_true_iff in Hc as [_ Hall]. rewrite Ht in Hall.
    simpl in Hall. rewrite andb_true_r in Hall. apply Z.leb_le in Hall.
    split; [exact Hd |]. split; [eauto |]. exists id. by simpl.
  - rewrite Ht in Hs. simpl in Hs. case_match; [| discriminate].
    injection Hs as <-. exfalso.
    destruct (settle_evolves (setAdFailed true (clearTimeout id w)))
      as (_ & _ & _ & _ & _ & Fv).
    unfold fallback in Hf'. simpl in Hf'.
    rewrite Fv in Hf' by reflexivity. discriminate.
  - rewrite Hel in Hs. injection Hs as <-. by eapply Hattr.
  - rewrite Hel in Hs. injection Hs as <-. by eapply Hattr.
  - injection Hs as <-. rewrite Hel. simpl.
    split; [exact Hd |]. split; [eauto |]. by exists id.
  - injection Hs as <-.
    assert (Hr : rerender w
                 = with_adRef (Some (patch_ins (child (ad_container props false false)) el)) w).
    { unfold AdSense.rerender. rewrite Hl, Hf, render_unmarked, Hel. simpl.
      by rewrite bool_decide_eq_true_2. }
    rewrite Hr in *.
    destruct (settle_unmarked
                (with_adRef
                   (Some (patch_ins (child (ad_container props false false)) el))
                   w) Hd Hl' Hf') as (_ & _ & ->).
    split; [exact Hd |]. split; [simpl; eauto |]. by exists id.
Qed.

Lemma armed_run t0 evs w w' :
  armed t0 w → run evs w = Some w' →
  adLoaded w' = false → adFailed w' = false → armed t0 w'.
Proof.
  revert w. induction evs as [| e evs IH]; intros w Ha; simpl.
  - by intros [= <-].
  - destruct (step e w) as [v |] eqn:Hs; [| discriminate].
    intros Hr Hl' Hf'.
    pose proof (run_evolves evs v w' Hr) as (_ & _ & _ & L & F).
    apply (IH v); auto.
    eapply armed_step; eauto.
    + destruct (adLoaded v); [by rewrite L in Hl' | done].
    + destruct (adFailed v); [by rewrite F in Hf' | done].
Qed.

(** C3: with AdSense configured the monitoring effect starts at the
    mount, at [t0].  As long as the ad is marked neither loaded nor
    failed, the fallback it armed for [t0 + 5000] is the one pending
    timer and the clock cannot pass that time; when the clock is
    there, the timer runs, the component marks itself failed, and
    every later render returns nothing. *)
Theorem fallback_after_five_seconds (t0 : Z) (st0 : gmap string JsValue)
    (s0 : option string) (w0 w : World) (evs : list Event) :
  mount t0 st0 s0 = Some w0 →
  run evs w0 = Some w →
  adLoaded w = false → adFailed w = false →
  now w ≤ t0 + 5000 ∧
  (∃ id, timers w = [ {| tid := id;
                         due := t0 + 5000;
                         kind := Fallback false false |} ]) ∧
  (∀ dt w', step (Wait dt) w = Some w' → now w' ≤ t0 + 5000) ∧
  (now w = t0 + 5000 →
   ∃ w', step Fire w = Some w' ∧ now w' = t0 + 5000 ∧
         adFailed w' = true ∧ view w' = None ∧
         ∀ evs' w'', run evs' w' = Some w'' →
                     adFailed w'' = true ∧ view w'' = None).
Proof.
  intros Hm Hr Hl Hf.
  assert (Ha : armed t0 w).
  { pose proof (run_evolves evs w0 w Hr) as (_ & _ & _ & L & F).
    eapply armed_run; [| exact Hr | exact Hl | exact Hf].
    eapply armed_mount; [exact Hm | |].
    - destruct (adLoaded w0); [by rewrite L in Hl | done].
    - destruct (adFailed w0); [by rewrite F in Hf | done]. }
  destruct Ha as (Hd & _ & id & Hmo & Ht & Hn).
  split; [exact Hn |]. split; [eauto |]. split.
  - intros dt w'. simpl. rewrite Ht. simpl.
    case_match eqn:Hc; [| discriminate]. intros [= <-]. simpl.
    apply andb_true_iff in Hc as [_ Hc]. rewrite andb_true_r in Hc.
    by apply Z.leb_le in Hc.
  - intros Hnow. simpl. rewrite Ht. simpl.
    rewrite (proj2 (Z.leb_le _ _)) by lia.
    eexists. split; [reflexivity |].
    set (v := setAdFailed true (clearTimeout id w)).
    destruct (settle_evolves v) as (Hnv & _ & _ & _ & _ & Fv).
    specialize (Fv eq_refl).
    assert (Hview : ∀ u, adFailed u = true → view u = None).
    { intros u Hu. unfold AdSense.view. rewrite Hu. apply render_failed. }
    unfold fallback. simpl. fold v.
    split; [by rewrite Hnv |]. split; [exact Fv |].
    split; [by apply Hview |].
    intros evs' w'' Hr'.
    apply run_evolves in Hr' as (_ & _ & _ & _ & F'').
    split; [by apply F'' | by apply Hview, F''].
Qed.

End Configured.

(** *** Without a configuration *)

Section Unconfigured.

Hypothesis unconfigured : isAdSenseConfigured = false.

Lemma idle_step e w w' : idle w → step e w = Some w' → idle w'.
Proof.
  intros (Hl & Hf & Hd & Hr & Hm & Ht & Hp) Hs.
  assert (Hst : stable w) by (unfold stable; by rewrite Hd, Hl, Hf).
  destruct e; simpl in Hs.
  - case_match; [| discriminate]. injection Hs as <-. by repeat split.
  - rewrite Ht in Hs. discriminate.
  - rewrite Hr in Hs. injection Hs as <-. by repeat split.
  - rewrite Hr in Hs. injection Hs as <-. by repeat split.
  - injection Hs as <-. rewrite Hr. by repeat split.
  - injection Hs as <-.
    assert (Hre : rerender w = with_adRef None w).
    { unfold AdSense.rerender, AdSense.render. rewrite unconfigured. simpl.
      by rewrite bool_decide_eq_true_2 by (by rewrite Hd, Hl, Hf). }
    rewrite Hre. unfold AdSense.settle.
    rewrite commit_stable_id by exact Hst. by repeat split.
Qed.

(** X15: with AdSense not configured the monitoring effect returns at
    its guard on every run: no observer, no timeout, no push, no flag is
    ever set, and the component renders nothing from the first render
    on. *)
Lemma unconfigured_never_monitors t0 st0 s0 w0 evs w :
  mount t0 st0 s0 = Some w0 → run evs w0 = Some w →
  idle w ∧ view w = None.
Proof.
  intros Hm Hr.
  assert (Hv : ∀ u, view u = None).
  { intros u. unfold AdSense.view, AdSense.render. by rewrite unconfigured. }
  split; [| apply Hv].
  assert (H0 : idle w0).
  { pose proof (proj2 (initial_slot t0 st0 s0) unconfigured) as Hslot.
    revert Hm. unfold AdSense.mount, AdSense.push_effect, try_catch,
      AdSense.push_body, mbind, Js_bind, current.
    rewrite Hslot. simpl. intros [= <-].
    rewrite monitor_effect_no_slot by exact Hslot.
    unfold AdSense.settle. rewrite commit_stable_id by reflexivity.
    by repeat split. }
  clear Hm. revert w0 H0 Hr.
  induction evs as [| e evs IH]; intros w0 H0; simpl.
  - by intros [= <-].
  - destruct (step e w0) as [v |] eqn:Hs; [| discriminate].
    apply IH. eapply idle_step; eauto.
Qed.

End Unconfigured.

End ComponentFacts.

(** ** The theorems at work on concrete pages *)

(** Each lemma below runs the component on [example_props] and applies one
    of the theorems above to that run. *)

Lemma render_nothing_or_container_witness :
  view false example_props (initial false example_props 0 example_store None) = None ∧
  view true example_props (initial true example_props 0 example_store None)
  = Some (ad_container example_props false false).
Proof.
  split.
  - apply (render_nothing_or_container false example_props). by left.
  - by apply (render_nothing_or_container true example_props).
Defined.

Lemma failed_is_absorbing_witness :
  ∃ w w',
    adFailed w = true ∧
    run true example_props [SetAttribute STATUS_ATTR "done"; Wait 700; Rerender] w
    = Some w' ∧
    adFailed w' = true ∧ view true example_props w' = None.
Proof.
  set (w := setAdFailed true (initial true example_props 0 example_store None)).
  destruct (run true example_props
              [SetAttribute STATUS_ATTR "done"; Wait 700; Rerender] w)
    as [w' |] eqn:Hr; [| by vm_compute in Hr].
  exists w, w'. split; [reflexivity |]. split; [exact Hr |].
  destruct (failed_is_absorbing true example_props 0 example_store None)
    as (_ & _ & _ & Hrun).
  exact (Hrun _ w w' eq_refl Hr).
Defined.

Lemma push_once_on_mount_witness :
  (∃ w, mount true example_props None 0 example_store None = Some w ∧
        pushes w = 1%nat ∧
        store w !! ADSBYGOOGLE = Some (VArr [VObj []])) ∧
  (∃ w, mount true example_props (Some "no slot left") 0
          {[ ADSBYGOOGLE := VObj [("loaded", VStr "true")] ]} None = Some w ∧
        adFailed w = true ∧ view true example_props w = None).
Proof.
  split.
  - destruct (push_once_on_mount true example_props None 0 example_store None)
      as (w1 & w & _ & Hm & _ & _ & _ & Harr & _).
    exists w. split; [exact Hm |].
    eapply (Harr _ []); [reflexivity | | ]; by vm_compute.
  - destruct (push_once_on_mount true example_props (Some "no slot left") 0
                {[ ADSBYGOOGLE := VObj [("loaded", VStr "true")] ]} None)
      as (w1 & w & _ & Hm & _ & _ & _ & _ & Hthrow).
    exists w. split; [exact Hm |].
    destruct (push_body (Some "no slot left")
                (initial true example_props 0
                   {[ ADSBYGOOGLE := VObj [("loaded", VStr "true")] ]} None))
      as [w2 [[] | err]] eqn:Hb; [by vm_compute in Hb |].
    destruct (Hthrow w2 err eq_refl) as (_ & Hf & Hv). by split.
Defined.

Lemma lessons_never_mutated_witness :
  ∃ w0,
    mount true example_props None 0 (page_store (Some (VArr []))) None = Some w0 ∧
    run true example_props [] w0 = Some w0 ∧
    store w0 !! "springBean" = Some Content.springBean.
Proof.
  destruct (mount_total true example_props None 0
              (page_store (Some (VArr []))) None) as (w1 & _ & Hm).
  set (w0 := settle true example_props (monitor_effect true false false w1)) in *.
  exists w0. split; [exact Hm |]. split; [reflexivity |].
  eapply (lessons_never_mutated true example_props None 0 (Some (VArr [])) None
            w0 w0 [] "springBean" Content.springBean);
    [| exact Hm | reflexivity].
  apply list_elem_of_lookup. exists 18%nat. reflexivity.
Defined.

Lemma status_values_decide_witness :
  adLoaded (checkAdStatus (initial true example_props 0 example_store (Some "done")))
  = true ∧
  adFailed (checkAdStatus (initial true example_props 0 example_store (Some "unfilled")))
  = true ∧
  run_timer IframeCheck
    (with_adRef (with_iframe (Some 250)
                   <$> adRef (initial true example_props 0 example_store None))
       (initial true example_props 0 example_store None))
  = setAdLoaded true
      (with_adRef (with_iframe (Some 250)
                     <$> adRef (initial true example_props 0 example_store None))
         (initial true example_props 0 example_store None)).
Proof.
  split; [| split].
  - destruct (status_values_decide true example_props None
                (initial true example_props 0 example_store (Some "done")))
      as (Hdone & _).
    by destruct Hdone as (Hl & _); [vm_compute |].
  - destruct (status_values_decide true example_props None
                (initial true example_props 0 example_store (Some "unfilled")))
      as (_ & Hfail & _).
    rewrite Hfail; [reflexivity |]. right. by vm_compute.
  - destruct (status_values_decide true example_props None
                (with_adRef (with_iframe (Some 250)
                   <$> adRef (initial true example_props 0 example_store None))
                   (initial true example_props 0 example_store None)))
      as (_ & _ & _ & Hpos & _).
    apply (Hpos 250); [by vm_compute | lia].
Defined.

Lemma fallback_after_five_seconds_witness :
  ∃ w0 w w',
    mount true example_props None 0 example_store None = Some w0 ∧
    run true example_props [Wait 2000; SetIframe (Some 90); Wait 3000] w0 = Some w ∧
    adLoaded w = false ∧ adFailed w = false ∧ now w = 0 + 5000 ∧
    step true example_props Fire w = Some w' ∧
    adFailed w' = true ∧ view true example_props w' = None.
Proof.
  destruct (mount true example_props None 0 example_store None)
    as [w0 |] eqn:Hm; [| by vm_compute in Hm].
  assert (Hrun : ∃ w, run true example_props
                        [Wait 2000; SetIframe (Some 90); Wait 3000] w0 = Some w ∧
                      adLoaded w = false ∧ adFailed w = false ∧ now w = 0 + 5000).
  { vm_compute in Hm. injection Hm as <-.
    eexists. split; [vm_compute; reflexivity |]. by vm_compute. }
  destruct Hrun as (w & Hr & Hl & Hf & Hn).
  destruct (fallback_after_five_seconds true example_props None eq_refl
              0 example_store None w0 w _ Hm Hr Hl Hf)
    as (_ & _ & _ & Hfire).
  destruct (Hfire Hn) as (w' & Hs & _ & Hf' & Hv & _).
  exists w0, w, w'. by repeat split.
Defined.

(** * Further properties *)

(** ** The lesson records *)

Lemma NoDup_fmap_injective {A B} (f : A → B) (l : list A) (x y : A) :
  NoDup (f <$> l) → x ∈ l → y ∈ l → f x = f y → x = y.
Proof.
  induction l as [| a l IH]; simpl; intros Hnd Hx Hy Hf.
  - by apply elem_of_nil in Hx.
  - apply NoDup_cons in Hnd as [Hna Hnd].
    apply elem_of_cons in Hx as [-> | Hx]; apply elem_of_cons in Hy as [-> | Hy];
      auto.
    + exfalso. apply Hna. rewrite Hf. by apply list_elem_of_fmap_2.
    + exfalso. apply Hna. rewrite <- Hf. by apply list_elem_of_fmap_2.
Qed.

Lemma lesson_ids_distinct :
  NoDup ((λ m, string_field "id" m.2) <$> Content.tutorial_modules).
Proof. apply (bool_decide_unpack _). vm_compute. exact I. Qed.

Lemma lesson_ids_prefixed :
  forallb (λ m, match string_field "id" m.2 with
                | Some i => true
                | None => false
                end) Content.tutorial_modules = true
  ∧ forallb (λ m, match string_field "id" m.2 with
                  | Some i => String.prefix "maven-" i
                  | None => false
                  end) Content.maven_modules = true
  ∧ forallb (λ m, match string_field "id" m.2 with
                  | Some i => String.prefix "spring-" i
                  | None => false
                  end) Content.spring_index = true.
Proof. by vm_compute. Qed.

(** X1: the lessons have pairwise distinct ids, so a lesson is found by
    its id without ambiguity; the id of a Maven lesson begins with
    [maven-], that of a Spring lesson with [spring-], so no id is shared
    between the two courses either. *)
Theorem lesson_ids_identify (n1 n2 : string) (o1 o2 : JsValue) :
  (n1, o1) ∈ Content.tutorial_modules →
  (n2, o2) ∈ Content.tutorial_modules →
  (∃ i, string_field "id" o1 = Some i ∧
        (((n1, o1) ∈ Content.maven_modules ∧ String.prefix "maven-" i = true) ∨
         ((n1, o1) ∈ Content.spring_index ∧ String.prefix "spring-" i = true))) ∧
  (string_field "id" o1 = string_field "id" o2 → n1 = n2 ∧ o1 = o2).
Proof.
  intros H1 H2. split.
  - destruct lesson_ids_prefixed as (_ & Hm & Hs).
    unfold Content.tutorial_modules in H1. apply elem_of_app in H1 as [H1 | H1].
    + pose proof (forallb_elem_of _ _ _ Hm H1) as Hp. simpl in Hp.
      destruct (string_field "id" o1) as [i |]; [| discriminate].
      exists i. split; [reflexivity |]. left. by split.
    + pose proof (forallb_elem_of _ _ _ Hs H1) as Hp. simpl in Hp.
      destruct (string_field "id" o1) as [i |]; [| discriminate].
      exists i. split; [reflexivity |]. right. by split.
  - intros Hid.
    assert (E : (n1, o1) = (n2, o2)).
    { eapply (NoDup_fmap_injective (λ m, string_field "id" m.2));
        [apply lesson_ids_distinct | exact H1 | exact H2 | exact Hid]. }
    by injection E.
Qed.

Lemma lesson_ids_identify_witness :
  string_field "id" Content.springDI = Some "spring-di" ∧
  (string_field "id" Content.springDI = string_field "id" Content.springDI →
   "springDI" = "springDI" ∧ Content.springDI = Content.springDI).
Proof.
  assert (Hin : ("springDI", Content.springDI) ∈ Content.tutorial_modules).
  { apply list_elem_of_lookup. exists 17%nat. reflexivity. }
  destruct (lesson_ids_identify "springDI" "springDI" Content.springDI
              Content.springDI Hin Hin) as [_ Hinj].
  split; [reflexivity | exact Hinj].
Defined.

Lemma spring_questions_checked :
  forallb (λ m, negb (bool_decide (questions_of m.2 = []))
                && forallb question_shape (questions_of m.2))
    Content.spring_index = true.
Proof. by vm_compute. Qed.

(** X2: every Spring lesson has at least one practice question, and each
    of its practice questions is an object with exactly the three string
    fields [question], [hint] and [starterCode]. *)
Theorem practice_questions_shape (name : string) (o q : JsValue) :
  (name, o) ∈ Content.spring_index →
  questions_of o ≠ [] ∧
  (q ∈ questions_of o →
   typeof q = TObject ∧
   own_keys q = ["question"; "hint"; "starterCode"] ∧
   field_is TString "question" q = true ∧
   field_is TString "hint" q = true ∧
   field_is TString "starterCode" q = true).
Proof.
  intros Hin.
  pose proof (forallb_elem_of _ _ _ spring_questions_checked Hin) as H.
  simpl in H. apply andb_true_iff in H as [Hne Hall]. split.
  - apply negb_true_iff, bool_decide_eq_false in Hne. exact Hne.
  - intros Hq. pose proof (forallb_elem_of _ _ _ Hall Hq) as Hs.
    unfold question_shape in Hs.
    repeat (apply andb_true_iff in Hs as [Hs ?]).
    apply bool_decide_eq_true in Hs.
    match goal with H : bool_decide _ = true |- _ =>
      apply bool_decide_eq_true in H end.
    by repeat split.
Qed.

Lemma practice_questions_shape_witness :
  ∃ q, questions_of Content.springBean = [q] ∧
       field_is TString "hint" q = true.
Proof.
  eexists. split; [reflexivity |].
  eapply (practice_questions_shape "springBean" Content.springBean).
  - apply list_elem_of_lookup. exists 3%nat. reflexivity.
  - apply list_elem_of_singleton. reflexivity.
Defined.

Lemma lesson_headings_checked :
  forallb (λ m, match heading_of "content" m.2 with
                | Some h => String.prefix "# " h
                | None => false
                end) Content.tutorial_modules = true
  ∧ forallb (λ m, bool_decide (string_field "courseTitle" m.2 = Some "Maven")
                  && bool_decide (string_field "sectionTitle" m.2
                                  = Some "Maven Basics"))
      Content.maven_modules = true.
Proof. by vm_compute. Qed.

(** X3: the markdown body of every lesson opens with a level-one heading,
    and every Maven lesson is filed under course [Maven], section
    [Maven Basics]. *)
Theorem lesson_headings_and_course (name : string) (o : JsValue) :
  (name, o) ∈ Content.tutorial_modules →
  (∃ h, heading_of "content" o = Some h ∧ String.prefix "# " h = true) ∧
  ((name, o) ∈ Content.maven_modules →
   string_field "courseTitle" o = Some "Maven" ∧
   string_field "sectionTitle" o = Some "Maven Basics").
Proof.
  intros Hin. destruct lesson_headings_checked as [Hh Hc]. split.
  - pose proof (forallb_elem_of _ _ _ Hh Hin) as H. simpl in H.
    destruct (heading_of "content" o) as [h |]; [| discriminate]. eauto.
  - intros Hm. pose proof (forallb_elem_of _ _ _ Hc Hm) as H. simpl in H.
    apply andb_true_iff in H as [H1 H2].
    by apply bool_decide_eq_true in H1, H2.
Qed.

Lemma lesson_headings_and_course_witness :
  (∃ h, heading_of "content" Content.mavenPomXml = Some h ∧
        String.prefix "# " h = true) ∧
  string_field "courseTitle" Content.mavenPomXml = Some "Maven".
Proof.
  assert (Hm : ("mavenPomXml", Content.mavenPomXml) ∈ Content.maven_modules).
  { apply list_elem_of_lookup. exists 14%nat. reflexivity. }
  assert (Hin : ("mavenPomXml", Content.mavenPomXml) ∈ Content.tutorial_modules).
  { apply elem_of_app. by left. }
  destruct (lesson_headings_and_course "mavenPomXml" Content.mavenPomXml Hin)
    as [Hh Hc].
  split; [exact Hh | exact (proj1 (Hc Hm))].
Defined.

(** ** The Maven icon *)

(** Finds a member of a concrete list, filling in what the goal leaves
    open. *)
Ltac find_elem :=
  first [ apply list_elem_of_here | apply list_elem_of_further; find_elem ].

(** X4: whatever is passed as size and class name, the icon's width and
    height are that size, its class is that class name, and its view box
    is [0 0 24 24]; it draws a disc and then the letter; the disc lies
    inside the view box, every vertex of the letter lies on the disc, the
    outline of the letter is closed (it ends where it starts, and every
    point it reaches it also leaves), the outline is its own mirror image
    in the vertical line through the centre of the disc (segment for
    segment), and the letter is filled in another colour than the disc. *)
Theorem icon_fits_its_box {Num : Type} (p : MavenIcon.IconProps Num) :
  MavenIcon.width (MavenIcon.MavenIcon p) = MavenIcon.size p ∧
  MavenIcon.height (MavenIcon.MavenIcon p) = MavenIcon.size p ∧
  MavenIcon.svg_class (MavenIcon.MavenIcon p) = MavenIcon.className p ∧
  MavenIcon.viewBox (MavenIcon.MavenIcon p) = (0, 0, 24, 24) ∧
  ∃ cx cy r disc_fill d letter_fill,
    MavenIcon.children (MavenIcon.MavenIcon p)
    = [ MavenIcon.Circle cx cy r disc_fill; MavenIcon.Path d letter_fill ] ∧
    MavenIcon.in_box (MavenIcon.viewBox (MavenIcon.MavenIcon p)) (cx - r, cy - r) ∧
    MavenIcon.in_box (MavenIcon.viewBox (MavenIcon.MavenIcon p)) (cx + r, cy + r) ∧
    Forall (MavenIcon.in_disc cx cy r) (MavenIcon.vertices d) ∧
    head (MavenIcon.vertices d) = last (MavenIcon.vertices d) ∧
    last d = Some MavenIcon.ClosePath ∧
    MavenIcon.outline d ≠ [] ∧
    Forall (λ sg, ∃ nxt, (sg.2, nxt) ∈ MavenIcon.outline d)
      (MavenIcon.outline d) ∧
    Forall (λ sg, MavenIcon.drawn (MavenIcon.outline d)
                    (MavenIcon.mirror cx sg.1) (MavenIcon.mirror cx sg.2))
      (MavenIcon.outline d) ∧
    disc_fill ≠ letter_fill.
Proof.
  split; [reflexivity |]. split; [reflexivity |]. split; [reflexivity |].
  split; [reflexivity |].
  exists 12, 12, 11, "#C71A36", MavenIcon.letter_path, "white".
  split; [reflexivity |].
  split; [unfold MavenIcon.in_box; simpl; lia |].
  split; [unfold MavenIcon.in_box; simpl; lia |].
  split; [repeat constructor; unfold MavenIcon.in_disc; simpl; lia |].
  split; [reflexivity |]. split; [reflexivity |].
  assert (Ho : MavenIcon.outline MavenIcon.letter_path
               = [ ((7, 8), (7, 16)); ((7, 16), (9, 16)); ((9, 16), (9, 11));
                   ((9, 11), (12, 13)); ((12, 13), (15, 11));
                   ((15, 11), (15, 16)); ((15, 16), (17, 16));
                   ((17, 16), (17, 8)); ((17, 8), (15, 8));
                   ((15, 8), (12, 10)); ((12, 10), (9, 8));
                   ((9, 8), (7, 8)) ]) by (by vm_compute).
  rewrite Ho. split; [discriminate |]. split; [| split; [| discriminate]].
  - repeat (apply Forall_cons_2;
            [simpl; eexists; find_elem |]).
    apply Forall_nil_2.
  - repeat (apply Forall_cons_2;
            [unfold MavenIcon.drawn;
             simpl; first [ left; find_elem | right; find_elem ] |]).
    apply Forall_nil_2.
Qed.

(** ** What the container looks like *)

Lemma style_get_app k a b :
  style_get k (a ++ b)
  = match style_get k b with
    | Some v => Some v
    | None => style_get k a
    end.
Proof.
  induction a as [| [k' v] a IH]; simpl.
  - by destruct (style_get k b).
  - rewrite IH. by destruct (style_get k b).
Qed.

(** X5: whenever the component renders the container, the container's
    [display] is [block] and its [minHeight] is the one of the load state,
    whatever the [style] prop says about the two; every other key of the
    [style] prop comes through unchanged; the class name ends in
    [ad-loaded] or [ad-loading] with the load state. *)
Theorem container_style_wins (isAdSenseConfigured : bool) (props : Props)
    (w : World) (v : VNode) :
  view isAdSenseConfigured props w = Some v →
  style_get "display" (div_style v) = Some "block" ∧
  style_get "minHeight" (div_style v)
  = Some (if adLoaded w then "auto" else "0") ∧
  style_get "minHeight" (ins_style (child v))
  = style_get "minHeight" (div_style v) ∧
  (∀ k, k ≠ "display" → k ≠ "minHeight" →
        style_get k (div_style v) = style_get k (style props)) ∧
  div_class v
  = "adsense-container " ++ className props ++ " "
      ++ (if adLoaded w then "ad-loaded" else "ad-loading").
Proof.
  unfold view, render.
  destruct isAdSenseConfigured; [| discriminate]. simpl.
  destruct (adFailed w); [discriminate |]. intros [= <-]. simpl.
  rewrite !style_get_app. simpl.
  split; [reflexivity |]. split; [by destruct (adLoaded w) |].
  split; [by destruct (adLoaded w) |]. split; [| reflexivity].
  intros k Hd Hm. rewrite style_get_app. simpl.
  destruct (String.eqb_spec k "display") as [-> | _]; [done |].
  destruct (String.eqb_spec k "minHeight") as [-> | _]; [done |].
  reflexivity.
Qed.

Lemma container_style_wins_witness :
  ∃ v, view true
         {| adSlot := "42"; adFormat := "auto"; adLayout := "";
            fullWidthResponsive := false;
            style := [("display", "none"); ("margin", "8px")];
            className := "sidebar"; adClient := "ca-pub-1" |}
         (initial true example_props 0 example_store None) = Some v ∧
       style_get "display" (div_style v) = Some "block" ∧
       style_get "margin" (div_style v) = Some "8px".
Proof.
  eexists. split; [reflexivity |].
  edestruct (container_style_wins true
               {| adSlot := "42"; adFormat := "auto"; adLayout := "";
                  fullWidthResponsive := false;
                  style := [("display", "none"); ("margin", "8px")];
                  className := "sidebar"; adClient := "ca-pub-1" |}
               (initial true example_props 0 example_store None))
    as (Hd & _ & _ & Hk & _); [reflexivity |].
  split; [exact Hd |]. rewrite Hk; [reflexivity | discriminate | discriminate].
Defined.

(** ** The component between renders *)

Import AdSenseState.

Section MoreComponentFacts.

Variable isAdSenseConfigured : bool.
Variable props : Props.
Variable script_push : option string.

#[local] Abbreviation render := (render isAdSenseConfigured props).
#[local] Abbreviation view := (view isAdSenseConfigured props).
#[local] Abbreviation monitor_effect := (monitor_effect isAdSenseConfigured).
#[local] Abbreviation rerender := (rerender isAdSenseConfigured props).
#[local] Abbreviation commit := (commit isAdSenseConfigured props).
#[local] Abbreviation settle := (settle isAdSenseConfigured props).
#[local] Abbreviation step := (step isAdSenseConfigured props).
#[local] Abbreviation run := (run isAdSenseConfigured props).
#[local] Abbreviation push_effect := (push_effect script_push).
#[local] Abbreviation initial := (initial isAdSenseConfigured props).
#[local] Abbreviation mount := (mount isAdSenseConfigured props script_push).
#[local] Abbreviation reachable :=
  (reachable isAdSenseConfigured props script_push).
#[local] Abbreviation mirrors := (mirrors isAdSenseConfigured).

Lemma render_none_iff l f :
  render l f = None ↔ isAdSenseConfigured = false ∨ f = true.
Proof.
  unfold AdSense.render. destruct isAdSenseConfigured, f; simpl;
    split; intros; try done; auto; by destruct H.
Qed.

Lemma reconcile_none_iff v cur : reconcile v cur = None ↔ v = None.
Proof. destruct v, cur; simpl; split; congruence. Qed.

(** Callbacks that touch flags, attributes and content checks only keep
    the mirror. *)
Lemma mirrors_weaken w w' :
  deps w' = deps w → (adRef w' = None ↔ adRef w = None) →
  monitor w' = monitor w →
  (∀ t l f, t ∈ timers w' → kind t = Fallback l f → t ∈ timers w) →
  mirrors w → mirrors w'.
Proof.
  intros Hd Hr Hm Ht (A & B & C). unfold AdSenseState.mirrors.
  rewrite Hd, Hr, Hm. split; [exact A |]. split; [exact B |].
  intros t l f Hin Hk. apply (C t l f); [by eapply Ht | exact Hk].
Qed.

Lemma mirrors_checkAdStatus w : mirrors w → mirrors (checkAdStatus w).
Proof.
  apply mirrors_weaken.
  - apply checkAdStatus_deps.
  - by rewrite checkAdStatus_adRef.
  - unfold checkAdStatus. repeat case_match; reflexivity.
  - unfold checkAdStatus. intros t l f. repeat case_match; simpl; auto.
    intros [Ht | ->%list_elem_of_singleton]%elem_of_app; [done | discriminate].
Qed.

Lemma mirrors_run_timer k w : mirrors w → mirrors (run_timer k w).
Proof.
  apply mirrors_weaken;
    destruct k; unfold run_timer, iframe_check, fallback;
    repeat case_match; simpl; auto.
Qed.

Lemma mirrors_clearTimeout id w : mirrors w → mirrors (clearTimeout id w).
Proof.
  apply mirrors_weaken; simpl; auto.
  intros t l f [_ Ht]%list_elem_of_filter. auto.
Qed.

Lemma mirrors_notify name w : mirrors w → mirrors (notify name w).
Proof.
  intros Hw. unfold notify. repeat case_match; auto using mirrors_checkAdStatus.
Qed.

(** The effect, run on a state with no fallback pending whose slot is the
    one of the render that runs it. *)
Lemma mirrors_monitor_effect l f w :
  deps w = (l, f) →
  (adRef w = None ↔ isAdSenseConfigured = false ∨ f = true) →
  (∀ t l' f', t ∈ timers w → kind t ≠ Fallback l' f') →
  mirrors (monitor_effect l f w).
Proof.
  intros Hd Hr Hno. unfold AdSense.monitor_effect.
  destruct (bool_decide (adRef w = None) || negb isAdSenseConfigured) eqn:Hg.
  - assert (Hc : isAdSenseConfigured = false ∨ f = true).
    { apply orb_true_iff in Hg as [Hg | Hg].
      - apply bool_decide_eq_true in Hg. by apply Hr.
      - left. by apply negb_true_iff in Hg. }
    split; [| split]; simpl; rewrite ?Hd; simpl.
    + exact Hr.
    + by split.
    + intros t l' f' Ht Hk. by destruct (Hno t l' f' Ht).
  - apply orb_false_iff in Hg as [Hslot Hcfg].
    apply bool_decide_eq_false in Hslot. apply negb_false_iff in Hcfg.
    assert (Hf : f = false).
    { destruct f; [| done]. exfalso. apply Hslot, Hr. by right. }
    split; [| split]; simpl; rewrite ?checkAdStatus_deps, ?checkAdStatus_adRef,
      ?Hd; simpl.
    + split; [done |]. intros [? | ?]; congruence.
    + split; [done |]. intros [? | ?]; congruence.
    + intros t l' f' [Ht | ->%list_elem_of_singleton]%elem_of_app Hk.
      * exfalso. revert Ht Hk. unfold checkAdStatus.
        repeat case_match; simpl; try (intros Ht Hk; by apply (Hno t l' f' Ht)).
        intros [Ht | ->%list_elem_of_singleton]%elem_of_app Hk;
          [by apply (Hno t l' f' Ht) | discriminate].
      * simpl in Hk. injection Hk as <- <-. split; [reflexivity |]. eauto.
Qed.

Lemma mirrors_rerender w : mirrors w → mirrors (rerender w).
Proof.
  intros (A & B & C). unfold AdSense.rerender. simpl.
  case_bool_decide as Hd.
  - split; [| split]; simpl; rewrite ?Hd; simpl; auto.
    + rewrite reconcile_none_iff. apply render_none_iff.
    + by rewrite Hd in B.
    + intros t l f Ht Hk. rewrite <- Hd. by apply C.
  - apply mirrors_monitor_effect.
    + by rewrite cleanup_deps.
    + unfold cleanup. simpl.
      assert (Hr : adRef (match monitor w with
                          | Some m => with_monitor None
                                        (clearTimeout (timeout m)
                                           (with_deps (adLoaded w, adFailed w)
                                              (with_adRef
                                                 (reconcile (render (adLoaded w) (adFailed w))
                                                    (adRef w)) w)))
                          | None => with_deps (adLoaded w, adFailed w)
                                      (with_adRef
                                         (reconcile (render (adLoaded w) (adFailed w))
                                            (adRef w)) w)
                          end)
                   = reconcile (render (adLoaded w) (adFailed w)) (adRef w))
        by (by destruct (monitor w)).
      rewrite Hr, reconcile_none_iff. apply render_none_iff.
    + intros t l' f' Ht Hk. unfold cleanup in Ht. simpl in Ht.
      destruct (monitor w) as [m |] eqn:Hm; simpl in Ht.
      * apply list_elem_of_filter in Ht as [Hne Ht].
        destruct (C t l' f' Ht Hk) as (_ & m' & [= <-] & Hid). by apply Hne.
      * by destruct (C t l' f' Ht Hk) as (_ & m' & ? & _).
Qed.

Lemma mirrors_commit fuel w : mirrors w → mirrors (commit fuel w).
Proof.
  revert w. induction fuel as [| fuel IH]; intros w Hw; simpl;
    case_match; auto using mirrors_rerender.
Qed.

Lemma mirrors_step e w w' : mirrors w → step e w = Some w' → mirrors w'.
Proof.
  intros Hw. destruct e; simpl; intros Hs.
  - case_match; [| discriminate]. injection Hs as <-.
    by eapply mirrors_weaken; [.. | exact Hw].
  - repeat case_match; try discriminate. injection Hs as <-.
    apply mirrors_commit, mirrors_run_timer, mirrors_clearTimeout, Hw.
  - destruct (adRef w) as [el |] eqn:Hr; injection Hs as <-; [| exact Hw].
    apply mirrors_commit, mirrors_notify.
    eapply mirrors_weaken; [.. | exact Hw]; simpl; auto. by rewrite Hr.
  - destruct (adRef w) as [el |] eqn:Hr; injection Hs as <-; [| exact Hw].
    apply mirrors_commit, mirrors_notify.
    eapply mirrors_weaken; [.. | exact Hw]; simpl; auto. by rewrite Hr.
  - injection Hs as <-.
    eapply mirrors_weaken; [.. | exact Hw]; simpl; auto.
    by destruct (adRef w).
  - injection Hs as <-. apply mirrors_commit, mirrors_rerender, Hw.
Qed.

Lemma mirrors_mount t0 st0 s0 w : mount t0 st0 s0 = Some w → mirrors w.
Proof.
  destruct (mount_total isAdSenseConfigured props script_push t0 st0 s0)
    as (w1 & H1 & Hm).
  rewrite Hm. intros [= <-].
  apply push_effect_frame in H1 as (_ & Hd & Hr & _ & Ht & _).
  apply mirrors_commit, mirrors_monitor_effect.
  - by rewrite Hd.
  - rewrite Hr, initial_slot. split; [auto |]. by intros [? | ?].
  - rewrite Ht. simpl. intros t l f Hin. by apply elem_of_nil in Hin.
Qed.

Lemma reachable_mirrors w : reachable w → mirrors w.
Proof.
  intros (t0 & st0 & s0 & w0 & evs & Hm & Hr).
  apply mirrors_mount in Hm. revert w0 Hm Hr.
  induction evs as [| e evs IH]; intros w0 Hm; simpl.
  - by intros [= <-].
  - destruct (step e w0) as [v |] eqn:Hs; [| discriminate].
    apply IH. eapply mirrors_step; eauto.
Qed.


(** X6: in every state a mounted component can be in, a pending fallback
    timeout holds the current values of [adLoaded] and [adFailed] (its
    closure is never stale), [adFailed] is false, the timeout is the one
    the current cleanup will clear, and it is the only fallback pending.
    So the fallback of a component that is marked loaded does nothing
    when it runs. *)
Theorem fallback_closure_is_current (w : World) (t : Timer) (l f : bool) :
  reachable w → t ∈ timers w → kind t = Fallback l f →
  l = adLoaded w ∧ f = adFailed w ∧ adFailed w = false ∧
  (∃ m, monitor w = Some m ∧ timeout m = tid t) ∧
  (∀ t' l' f', t' ∈ timers w → kind t' = Fallback l' f' → t' = t) ∧
  (adLoaded w = true → ∀ v, run_timer (kind t) v = v).
Proof.
  intros Hre Ht Hk.
  pose proof (reachable_mirrors w Hre) as (_ & B & C).
  pose proof (reachable_stable _ _ _ w Hre) as Hst.
  pose proof (reachable_wf _ _ _ w Hre) as Hw.
  destruct (C t l f Ht Hk) as (Hd & m & Hm & Hid).
  unfold stable in Hst. rewrite Hst in Hd, B. injection Hd as -> ->.
  assert (Hf : adFailed w = false).
  { destruct (adFailed w); [| done].
    assert (monitor w = None) by (apply B; by right). congruence. }
  split; [done |]. split; [done |]. split; [done |].
  split; [eauto |]. split.
  - intros t' l' f' Ht' Hk'.
    destruct (C t' l' f' Ht' Hk') as (_ & m' & Hm' & Hid').
    eapply wf_uniq; eauto. congruence.
  - intros Hl v. rewrite Hk. simpl. unfold fallback. by rewrite Hl.
Qed.

(** X7: in every state a mounted component can be in, the slot element
    is in the page exactly when a render returns the container, and so is
    the observer's cleanup; once the component renders nothing, the only
    timeouts that can still be pending are content checks. *)
Theorem slot_and_observer_follow_render (w : World) :
  reachable w →
  (adRef w = None ↔ view w = None) ∧
  (monitor w = None ↔ view w = None) ∧
  (view w = None → ∀ t, t ∈ timers w → kind t = IframeCheck).
Proof.
  intros Hre.
  pose proof (reachable_mirrors w Hre) as (A & B & C).
  pose proof (reachable_stable _ _ _ w Hre) as Hst.
  unfold stable in Hst. rewrite Hst in A, B. simpl in A, B.
  unfold AdSense.view. rewrite render_none_iff.
  split; [exact A |]. split; [exact B |].
  intros Hnone t Ht. destruct (kind t) as [| l f] eqn:Hk; [reflexivity |].
  destruct (C t l f Ht Hk) as (_ & m & Hm & _).
  apply B in Hnone. congruence.
Qed.

Lemma checkAdStatus_keeps_shown w :
  getStatus w ≠ Some "error" → getStatus w ≠ Some "unfilled" →
  adLoaded w = true →
  adLoaded (checkAdStatus w) = true ∧
  adFailed (checkAdStatus w) = adFailed w.
Proof.
  intros He Hu Hl. unfold checkAdStatus.
  destruct (getStatus w) as [s |]; [| done].
  destruct (String.eqb_spec s "done") as [-> | _]; [done |].
  destruct (String.eqb_spec s "error") as [-> | _]; [done |].
  destruct (String.eqb_spec s "unfilled") as [-> | _]; done.
Qed.

Lemma settle_same_flags w v :
  stable w → deps v = deps w → adLoaded v = adLoaded w →
  adFailed v = adFailed w → settle v = v.
Proof.
  intros Hst Hd Hl Hf. apply commit_stable_id.
  unfold stable in *. by rewrite Hd, Hl, Hf.
Qed.

Lemma showing_step e w w' :
  wf w → stable w → mirrors w → showing w → hides e = false →
  step e w = Some w' → showing w'.
Proof.
  intros Hw Hst Hmi (Hl & Hf & h & Hi & Hh) Hhide Hs.
  destruct (adRef w) as [el |] eqn:Hr; [| discriminate]. simpl in Hi.
  assert (Hshow : ∀ v, adLoaded v = true → adFailed v = false →
                       deps v = deps w → adRef v ≫= iframe = Some h →
                       w' = settle v → showing w').
  { intros v Hlv Hfv Hdv Hiv ->.
    rewrite (settle_same_flags w v Hst Hdv) by congruence.
    split; [done |]. split; [done |]. eauto. }
  destruct e; simpl in Hs.
  - case_match; [| discriminate]. injection Hs as <-.
    split; [done |]. split; [done |]. exists h. simpl. by rewrite Hr.
  - destruct (earliest (timers w)) as [t |] eqn:He; [| discriminate].
    case_match; [| discriminate]. injection Hs as <-.
    apply earliest_elem in He.
    destruct (kind t) as [| l f] eqn:Hk.
    + eapply Hshow; [.. | reflexivity]; simpl;
        unfold iframe_check; simpl; rewrite Hr; simpl; rewrite Hi;
        rewrite (proj2 (Z.ltb_lt 0 h) Hh); simpl; auto.
      by rewrite Hr.
    + destruct Hmi as (_ & _ & C). destruct (C t l f He Hk) as (Hd & _).
      unfold stable in Hst. rewrite Hst, Hl, Hf in Hd. injection Hd as -> ->.
      eapply Hshow; [.. | reflexivity]; simpl; auto. by rewrite Hr.
  - rewrite Hr in Hs. injection Hs as Hs. symmetry in Hs.
    set (w1 := with_adRef (Some (setAttribute name value el)) w) in *.
    assert (Hw1 : wf w1) by (by eapply wf_same; [.. | exact Hw]).
    destruct (decide (name = STATUS_ATTR)) as [-> | Hn].
    + destruct (monitor w) as [m |] eqn:Hm.
      * rewrite (notify_status w1 m Hw1 Hm) in Hs.
        assert (Hg : getStatus w1 = Some value).
        { unfold getStatus, getAttribute. simpl. by rewrite lookup_insert_eq. }
        unfold hides in Hhide. rewrite String.eqb_refl in Hhide.
        simpl in Hhide.
        apply orb_false_iff in Hhide as [He Hu].
        apply String.eqb_neq in He, Hu.
        destruct (checkAdStatus_keeps_shown w1) as [Hl1 Hf1];
          [rewrite Hg; congruence | rewrite Hg; congruence | exact Hl |].
        apply (Hshow (checkAdStatus w1)); auto.
        -- rewrite Hf1. exact Hf.
        -- by rewrite checkAdStatus_deps.
        -- by rewrite checkAdStatus_adRef.
      * unfold notify in Hs. simpl in Hs. rewrite Hm in Hs.
        by apply (Hshow w1).
    + rewrite (notify_other name w1 Hw1 Hn) in Hs. by apply (Hshow w1).
  - rewrite Hr in Hs. injection Hs as Hs. symmetry in Hs.
    set (w1 := with_adRef (Some (removeAttribute name el)) w) in *.
    assert (Hw1 : wf w1) by (by eapply wf_same; [.. | exact Hw]).
    destruct (decide (name = STATUS_ATTR)) as [-> | Hn].
    + destruct (monitor w) as [m |] eqn:Hm.
      * rewrite (notify_status w1 m Hw1 Hm) in Hs.
        assert (Hg : getStatus w1 = None).
        { unfold getStatus, getAttribute. simpl. by rewrite lookup_delete_eq. }
        destruct (checkAdStatus_keeps_shown w1) as [Hl1 Hf1];
          [rewrite Hg; congruence | rewrite Hg; congruence | exact Hl |].
        apply (Hshow (checkAdStatus w1)); auto.
        -- rewrite Hf1. exact Hf.
        -- by rewrite checkAdStatus_deps.
        -- by rewrite checkAdStatus_adRef.
      * unfold notify in Hs. simpl in Hs. rewrite Hm in Hs.
        by apply (Hshow w1).
    + rewrite (notify_other name w1 Hw1 Hn) in Hs. by apply (Hshow w1).
  - injection Hs as <-. rewrite Hr. simpl in *.
    destruct offsetHeight as [x |]; [| discriminate].
    apply negb_false_iff, Z.ltb_lt in Hhide.
    split; [done |]. split; [done |]. by exists x.
  - injection Hs as Hs. symmetry in Hs.
    assert (Hcfg : isAdSenseConfigured = true).
    { destruct Hmi as (A & _). destruct isAdSenseConfigured; [done |].
      assert (adRef w = None) by (apply A; by left). congruence. }
    assert (Hre : rerender w
                  = with_adRef
                      (Some (patch_ins (child (ad_container props true false)) el)) w).
    { unfold AdSense.rerender, AdSense.render.
      rewrite Hl, Hf, Hcfg, Hr. simpl.
      rewrite bool_decide_eq_true_2; [reflexivity |].
      unfold stable in Hst. by rewrite Hst, Hl, Hf. }
    rewrite Hre in Hs.
    by apply (Hshow (with_adRef
                       (Some (patch_ins (child (ad_container props true false)) el))
                       w)).
Qed.

(** X8: an ad that is marked loaded and shows an iframe of positive
    height stays on the page: through any run in which the status never
    turns ['error'] or ['unfilled'] and the iframe is never removed or
    left without height, whatever timeouts run and whatever renders
    happen, it stays marked loaded, is not marked failed, and every render
    returns the container. *)
Theorem loaded_ad_stays_shown (w w' : World) (evs : list Event) :
  reachable w → showing w →
  Forall (λ e, hides e = false) evs →
  run evs w = Some w' →
  showing w' ∧ view w' = Some (ad_container props true false).
Proof.
  intros Hre Hsh Hall Hr.
  assert (Hgoal : reachable w' ∧ showing w').
  { revert w Hre Hsh Hr. induction Hall as [| e evs He Hall IH];
      intros w Hre Hsh; simpl.
    - by intros [= <-].
    - destruct (step e w) as [v |] eqn:Hs; [| discriminate].
      intros Hr. apply (IH v); [by eapply reachable_step | | exact Hr].
      eapply showing_step; [.. | exact He | exact Hs];
        eauto using reachable_wf, reachable_stable, reachable_mirrors. }
  destruct Hgoal as [Hre' Hsh']. split; [exact Hsh' |].
  destruct Hsh' as (Hl & Hf & h & Hi & _).
  pose proof (reachable_mirrors w' Hre') as (A & _).
  unfold AdSense.view, AdSense.render. rewrite Hl, Hf.
  destruct isAdSenseConfigured; [reflexivity |].
  assert (Hn : adRef w' = None) by (apply A; by left).
  rewrite Hn in Hi. discriminate.
Qed.


Lemma managed_no_status p l f :
  managed_attrs (child (ad_container p l f)) !! STATUS_ATTR = None.
Proof.
  unfold managed_attrs. simpl.
  rewrite !lookup_insert_ne by done. apply lookup_empty.
Qed.

Lemma getStatus_reconcile l f w :
  getStatus (with_adRef (reconcile (render l f) (adRef w)) w) = None ∨
  getStatus (with_adRef (reconcile (render l f) (adRef w)) w) = getStatus w.
Proof.
  unfold getStatus, getAttribute, AdSense.render. simpl.
  destruct (negb isAdSenseConfigured); [by left |].
  destruct f; [by left |]. simpl.
  destruct (adRef w) as [el |]; simpl.
  - by right.
  - left. exact (managed_no_status props l false).
Qed.

Lemma commit_unstable fuel w :
  deps w ≠ (adLoaded w, adFailed w) →
  commit (S fuel) w = commit fuel (rerender w).
Proof. intros Hn. simpl. by rewrite bool_decide_eq_false_2. Qed.

(** What one observed ['done'] does to a component that has marked
    nothing yet. *)
Lemma done_step_shape t0 w :
  isAdSenseConfigured = true → wf w → armed t0 w →
  adLoaded w = false → adFailed w = false →
  ∃ w', step (SetAttribute STATUS_ATTR "done") w = Some w' ∧
        adLoaded w' = true ∧ adFailed w' = false ∧ now w' = now w ∧
        deps w' = (true, false) ∧
        adRef w' ≫= iframe = adRef w ≫= iframe ∧
        timers w'
        = [ {| tid := next_timer w; due := now w + 500; kind := IframeCheck |};
            {| tid := S (next_timer w); due := now w + 500; kind := IframeCheck |};
            {| tid := S (S (next_timer w)); due := now w + 5000;
               kind := Fallback true false |} ].
Proof.
  intros Hcfg Hw (Hd & [el Hr] & id & Hm & Ht & _) Hl Hf.
  assert (Hid : (id < next_timer w)%nat).
  { apply (wf_tid w Hw {| tid := id; due := t0 + 5000;
                          kind := Fallback false false |}).
    rewrite Ht. by apply list_elem_of_singleton. }
  set (w1 := with_adRef (Some (setAttribute STATUS_ATTR "done" el)) w).
  set (w2 := (setTimeout IframeCheck 500 (setAdLoaded true w1)).1).
  assert (Hstep : step (SetAttribute STATUS_ATTR "done") w = Some (settle w2)).
  { simpl. rewrite Hr. fold w1. do 2 f_equal.
    unfold notify. replace (monitor w1) with (monitor w) by reflexivity.
    rewrite Hm. simpl. apply checkAdStatus_done.
    unfold getStatus, getAttribute. simpl. by rewrite lookup_insert_eq. }
  assert (Hun : deps w2 ≠ (adLoaded w2, adFailed w2)).
  { simpl. rewrite Hd. congruence. }
  set (r := rerender w2).
  assert (Hrl : adLoaded r = true ∧ adFailed r = false ∧ now r = now w ∧
                deps r = (true, false) ∧
                adRef r ≫= iframe = adRef w ≫= iframe ∧
                timers r
                = [ {| tid := next_timer w; due := now w + 500;
                       kind := IframeCheck |};
                    {| tid := S (next_timer w); due := now w + 500;
                       kind := IframeCheck |};
                    {| tid := S (S (next_timer w)); due := now w + 5000;
                       kind := Fallback true false |} ]).
  { clear Hstep Hun. subst r w2 w1. unfold AdSense.rerender. simpl.
    rewrite bool_decide_eq_false_2 by (rewrite Hd; congruence).
    unfold AdSense.render. rewrite Hcfg, Hf. simpl.
    unfold cleanup. simpl. rewrite Hm, Ht.
    unfold AdSense.monitor_effect. simpl.
    unfold checkAdStatus, getStatus, getAttribute. simpl.
    rewrite lookup_insert_eq. simpl.
    rewrite (filter_cons_False (λ t, tid t ≠ id)) by (simpl; tauto).
    rewrite (filter_cons_True (λ t, tid t ≠ id)) by (simpl; lia).
    rewrite filter_nil. simpl. rewrite Hr. by repeat split. }
  exists r. split.
  - rewrite Hstep. f_equal. unfold AdSense.settle.
    rewrite (commit_unstable 2 w2 Hun). fold r.
    apply commit_stable_id. unfold stable.
    destruct Hrl as (-> & -> & _ & -> & _). reflexivity.
  - exact Hrl.
Qed.

Lemma reachable_armed w :
  isAdSenseConfigured = true → reachable w →
  adLoaded w = false → adFailed w = false → ∃ t0, armed t0 w.
Proof.
  intros Hcfg (t0 & st0 & s0 & w0 & evs & Hm & Hr) Hl Hf. exists t0.
  pose proof (run_evolves _ _ evs w0 w Hr) as (_ & _ & _ & L & F).
  eapply (armed_run _ _ Hcfg); [| exact Hr | exact Hl | exact Hf].
  eapply (armed_mount _ _ _ Hcfg); [exact Hm | |].
  - destruct (adLoaded w0); [by rewrite L in Hl | done].
  - destruct (adFailed w0); [by rewrite F in Hf | done].
Qed.

(** X9: when a configured component that has marked nothing yet sees the
    status turn ['done'], it marks itself loaded and ends the step with
    two content checks queued for 500 ms later, one from the observer's
    callback and one from the monitoring effect that runs again because
    [adLoaded] changed, and with a new fallback for 5 s later whose closure
    holds [adLoaded = true]; the old fallback is cleared. *)
Theorem done_queues_two_checks (w : World) :
  isAdSenseConfigured = true → reachable w →
  adLoaded w = false → adFailed w = false →
  ∃ w', step (SetAttribute STATUS_ATTR "done") w = Some w' ∧
        adLoaded w' = true ∧ adFailed w' = false ∧
        kind <$> timers w' = [IframeCheck; IframeCheck; Fallback true false] ∧
        due <$> timers w' = [now w + 500; now w + 500; now w + 5000].
Proof.
  intros Hcfg Hre Hl Hf.
  destruct (reachable_armed w Hcfg Hre Hl Hf) as [t0 Ha].
  destruct (done_step_shape t0 w Hcfg (reachable_wf _ _ _ w Hre) Ha Hl Hf)
    as (w' & Hs & Hl' & Hf' & _ & _ & _ & Ht).
  exists w'. rewrite Ht. by repeat split.
Qed.

Lemma step_wait_ok dt w :
  0 ≤ dt → (∀ t, t ∈ timers w → now w + dt ≤ due t) →
  step (Wait dt) w = Some (with_now (now w + dt) w).
Proof.
  intros Hdt Hall. unfold AdSense.step.
  rewrite (proj2 (Z.leb_le 0 dt) Hdt).
  rewrite (proj2 (forallb_forall _ (timers w))); [reflexivity |].
  intros t Ht. apply Z.leb_le, Hall. by apply list_elem_of_In.
Qed.

Lemma step_fire_head w t rest :
  timers w = t :: rest → (∀ t', t' ∈ rest → due t ≤ due t') →
  due t ≤ now w →
  step Fire w = Some (settle (run_timer (kind t) (clearTimeout (tid t) w))).
Proof.
  intros Ht Hmin Hdue. unfold AdSense.step. rewrite Ht.
  assert (He : earliest (t :: rest) = Some t).
  { cbn [earliest]. destruct (earliest rest) as [t' |] eqn:E; [| reflexivity].
    apply earliest_elem, Hmin in E.
    by rewrite (proj2 (Z.ltb_ge (due t') (due t)) E). }
  rewrite He. by rewrite (proj2 (Z.leb_le _ _) Hdue).
Qed.

(** X10: a slot that is reported ['done'] but holds no iframe of positive
    height is hidden half a second later: from a configured component
    that has marked nothing, the status change, 500 ms of waiting and the
    first due timeout end with [adFailed] set and nothing rendered. *)
Theorem done_without_content_hides (w : World) :
  isAdSenseConfigured = true → reachable w →
  adLoaded w = false → adFailed w = false →
  (∀ h, adRef w ≫= iframe = Some h → h ≤ 0) →
  ∃ w', run [SetAttribute STATUS_ATTR "done"; Wait 500; Fire] w = Some w' ∧
        now w' = now w + 500 ∧ adFailed w' = true ∧ view w' = None.
Proof.
  intros Hcfg Hre Hl Hf Hempty.
  destruct (reachable_armed w Hcfg Hre Hl Hf) as [t0 Ha].
  destruct (done_step_shape t0 w Hcfg (reachable_wf _ _ _ w Hre) Ha Hl Hf)
    as (w1 & Hs & Hl1 & Hf1 & Hn1 & Hd1 & Hi1 & Ht1).
  cbn [AdSense.run]. rewrite Hs.
  assert (Hwait : step (Wait 500) w1 = Some (with_now (now w + 500) w1)).
  { rewrite <- Hn1. apply step_wait_ok; [lia |].
    rewrite Ht1, Hn1. intros t Ht.
    repeat (apply elem_of_cons in Ht as [-> | Ht]; [simpl; lia |]).
    by apply elem_of_nil in Ht. }
  rewrite Hwait.
  set (w2 := with_now (now w + 500) w1).
  set (v := iframe_check (clearTimeout (next_timer w) w2)).
  assert (Hfire : step Fire w2 = Some (settle v)).
  { rewrite (step_fire_head w2 _ _ Ht1); [reflexivity | | simpl; lia].
    intros t Ht.
    repeat (apply elem_of_cons in Ht as [-> | Ht]; [simpl; lia |]).
    by apply elem_of_nil in Ht. }
  rewrite Hfire. eexists. split; [reflexivity |].
  assert (Hv : adFailed v = true ∧ now v = now w + 500).
  { subst v. unfold iframe_check. simpl. rewrite Hi1.
    destruct (adRef w ≫= iframe) as [h |]; [| by simpl].
    specialize (Hempty h eq_refl).
    by rewrite (proj2 (Z.ltb_ge 0 h) Hempty). }
  destruct (settle_evolves isAdSenseConfigured props v)
    as (Hn & _ & _ & _ & _ & F).
  destruct Hv as [Hfv Hnv]. specialize (F Hfv).
  split; [by rewrite Hn |]. split; [exact F |].
  unfold AdSense.view. rewrite F. apply render_failed.
Qed.


Lemma unloaded_from w w' :
  unloaded w → adLoaded w' = false →
  (getStatus w' = None ∨ getStatus w' = getStatus w) →
  (∀ t, t ∈ timers w' → t ∈ timers w ∨ kind t ≠ IframeCheck) →
  unloaded w'.
Proof.
  intros (Hl & Hg & Ht) Hl' Hg' Ht'. split; [exact Hl' |]. split.
  - destruct Hg' as [-> | ->]; [done | exact Hg].
  - intros t Hin. destruct (Ht' t Hin) as [Hold | Hk]; [by apply Ht | exact Hk].
Qed.

Lemma unloaded_checkAdStatus w : unloaded w → unloaded (checkAdStatus w).
Proof.
  intros Hu. pose proof Hu as (Hl & Hg & _).
  apply (unloaded_from w); [exact Hu | | |].
  - unfold checkAdStatus. destruct (getStatus w) as [s |]; [| exact Hl].
    destruct (String.eqb_spec s "done") as [-> | _]; [done |].
    by case_match.
  - right. unfold getStatus. by rewrite checkAdStatus_adRef.
  - unfold checkAdStatus. destruct (getStatus w) as [s |]; [| by left].
    destruct (String.eqb_spec s "done") as [-> | _]; [done |].
    case_match; by left.
Qed.

Lemma unloaded_cleanup w : unloaded w → unloaded (cleanup w).
Proof.
  intros Hu. pose proof Hu as (Hl & _).
  apply (unloaded_from w); [exact Hu | | |]; unfold cleanup;
    destruct (monitor w); simpl; auto.
  intros t [_ Ht]%list_elem_of_filter. by left.
Qed.

Lemma unloaded_monitor_effect l f w :
  unloaded w → unloaded (monitor_effect l f w).
Proof.
  intros Hu. unfold AdSense.monitor_effect.
  case_match; [exact Hu |].
  apply unloaded_checkAdStatus in Hu. pose proof Hu as (Hl & _).
  apply (unloaded_from (checkAdStatus w)); [exact Hu | | |]; simpl; auto.
  intros t [Ht | ->%list_elem_of_singleton]%elem_of_app; [by left | by right].
Qed.

Lemma unloaded_rerender w : unloaded w → unloaded (rerender w).
Proof.
  intros Hu. pose proof Hu as (Hl & _).
  assert (H1 : unloaded (with_adRef
                           (reconcile (render (adLoaded w) (adFailed w)) (adRef w))
                           w)).
  { apply (unloaded_from w); [exact Hu | exact Hl | | by left].
    apply getStatus_reconcile. }
  unfold AdSense.rerender. case_match; [exact H1 |].
  apply unloaded_monitor_effect, unloaded_cleanup.
  by apply (unloaded_from _ _ H1); [| right | left].
Qed.

Lemma unloaded_commit fuel w : unloaded w → unloaded (commit fuel w).
Proof.
  revert w. induction fuel as [| fuel IH]; intros w Hu; simpl;
    case_match; auto using unloaded_rerender.
Qed.

Lemma unloaded_step e w w' :
  unloaded w → sets_done e = false → step e w = Some w' → unloaded w'.
Proof.
  intros Hu Hnd Hs. pose proof Hu as (Hl & Hg & Ht).
  destruct e; simpl in Hs.
  - case_match; [| discriminate]. injection Hs as <-.
    by apply (unloaded_from w); [| | right | left].
  - destruct (earliest (timers w)) as [t |] eqn:He; [| discriminate].
    case_match; [| discriminate]. injection Hs as <-.
    apply earliest_elem in He. pose proof (Ht t He) as Hk.
    apply unloaded_commit.
    destruct (kind t) as [| l f]; [done |]. simpl.
    unfold fallback. case_match;
      (apply (unloaded_from w); [exact Hu | exact Hl | by right |]);
      simpl; intros t' [_ Hin]%list_elem_of_filter; by left.
  - destruct (adRef w) as [el |] eqn:Hr; injection Hs as <-; [| exact Hu].
    apply unloaded_commit.
    set (w1 := with_adRef (Some (setAttribute name value el)) w).
    assert (H1 : unloaded w1).
    { split; [exact Hl |]. split; [| exact Ht].
      unfold getStatus, getAttribute. simpl.
      destruct (decide (name = STATUS_ATTR)) as [-> | Hn].
      - rewrite lookup_insert_eq. intros [= ->]. simpl in Hnd.
        discriminate.
      - rewrite lookup_insert_ne by exact Hn.
        unfold getStatus in Hg. by rewrite Hr in Hg. }
    unfold notify. repeat case_match; auto using unloaded_checkAdStatus.
  - destruct (adRef w) as [el |] eqn:Hr; injection Hs as <-; [| exact Hu].
    apply unloaded_commit.
    set (w1 := with_adRef (Some (removeAttribute name el)) w).
    assert (H1 : unloaded w1).
    { split; [exact Hl |]. split; [| exact Ht].
      unfold getStatus, getAttribute. simpl.
      destruct (decide (name = STATUS_ATTR)) as [-> | Hn].
      - by rewrite lookup_delete_eq.
      - rewrite lookup_delete_ne by exact Hn.
        unfold getStatus in Hg. by rewrite Hr in Hg. }
    unfold notify. repeat case_match; auto using unloaded_checkAdStatus.
  - injection Hs as <-.
    apply (unloaded_from w); [exact Hu | exact Hl | | by left].
    right. unfold getStatus. simpl. by destruct (adRef w).
  - injection Hs as <-. apply unloaded_commit, unloaded_rerender, Hu.
Qed.

Lemma initial_status t0 st0 s0 :
  getStatus (initial t0 st0 s0) = if isAdSenseConfigured then s0 else None.
Proof.
  unfold getStatus, AdSense.initial, AdSense.render.
  destruct isAdSenseConfigured; [| by destruct s0].
  cbn [negb adRef fmap option_fmap option_map compose].
  destruct s0 as [s |]; cbn [mbind option_bind fmap option_fmap option_map].
  - unfold getAttribute, setAttribute. cbn [attrs]. apply lookup_insert_eq.
  - unfold getAttribute, create_ins. cbn [attrs].
    exact (managed_no_status props false false).
Qed.

Lemma unloaded_mount t0 st0 s0 w :
  s0 ≠ Some "done" → mount t0 st0 s0 = Some w → unloaded w.
Proof.
  intros Hs0.
  destruct (mount_total isAdSenseConfigured props script_push t0 st0 s0)
    as (w1 & H1 & Hm).
  rewrite Hm. intros [= <-].
  apply push_effect_frame in H1 as (_ & _ & Hr & _ & Ht & _ & Hl & _).
  apply unloaded_commit, unloaded_monitor_effect.
  split; [by rewrite Hl |]. split.
  - assert (Hg : getStatus w1 = getStatus (initial t0 st0 s0))
      by (unfold getStatus; by rewrite Hr).
    rewrite Hg, initial_status. destruct isAdSenseConfigured; congruence.
  - rewrite Ht. simpl. intros t Hin. by apply elem_of_nil in Hin.
Qed.

(** X12: the component reports a load only for a status of ['done']: if
    the slot is not ['done'] when the effects first run and no event
    writes ['done'] to the status attribute, [adLoaded] stays false
    throughout; and then, with AdSense configured, no state lies more than
    5 s after the mount without [adFailed] set and nothing rendered. *)
Theorem never_loaded_without_done (t0 : Z) (st0 : gmap string JsValue)
    (s0 : option string) (w0 w : World) (evs : list Event) :
  mount t0 st0 s0 = Some w0 → s0 ≠ Some "done" →
  Forall (λ e, sets_done e = false) evs →
  run evs w0 = Some w →
  adLoaded w = false ∧
  (isAdSenseConfigured = true → t0 + 5000 < now w →
   adFailed w = true ∧ view w = None).
Proof.
  intros Hm Hs0 Hall Hr.
  assert (Hu : unloaded w).
  { pose proof (unloaded_mount t0 st0 s0 w0 Hs0 Hm) as H0.
    clear Hm. revert w0 H0 Hr. induction Hall as [| e evs He Hall IH];
      intros w0 H0; simpl.
    - by intros [= <-].
    - destruct (step e w0) as [v |] eqn:Hs; [| discriminate].
      apply IH. eapply unloaded_step; eauto. }
  destruct Hu as (Hl & _). split; [exact Hl |].
  intros Hcfg Hlate.
  destruct (adFailed w) eqn:Hf.
  - split; [reflexivity |]. unfold AdSense.view. rewrite Hf.
    apply render_failed.
  - exfalso.
    assert (Hre : reachable w) by (by exists t0, st0, s0, w0, evs).
    pose proof (run_evolves _ _ evs w0 w Hr) as (_ & _ & _ & L & F).
    assert (Ha : armed t0 w).
    { eapply (armed_run _ _ Hcfg); [| exact Hr | exact Hl | exact Hf].
      eapply (armed_mount _ _ _ Hcfg); [exact Hm | |].
      - destruct (adLoaded w0); [by rewrite L in Hl | done].
      - destruct (adFailed w0); [by rewrite F in Hf | done]. }
    destruct Ha as (_ & _ & id & _ & _ & Hn). lia.
Qed.

(** X13: nothing is pushed, then or later, and the page's objects stay
    exactly as they were, when [window.adsbygoogle] is not defined at the
    mount, when the slot already carries a status attribute, or when
    AdSense is not configured.  In particular the component does not
    create the queue the ad script would read. *)
Theorem no_queue_no_push (t0 : Z) (st0 : gmap string JsValue)
    (s0 : option string) (w0 w : World) (evs : list Event) :
  st0 !! ADSBYGOOGLE = None ∨ s0 ≠ None ∨ isAdSenseConfigured = false →
  mount t0 st0 s0 = Some w0 → run evs w0 = Some w →
  pushes w = O ∧ store w = st0 ∧ console w0 = [].
Proof.
  intros Hcase Hm Hr.
  assert (Hp : push_effect (initial t0 st0 s0) = (initial t0 st0 s0, Normal tt)).
  { unfold AdSense.push_effect, try_catch, AdSense.push_body, mbind, Js_bind,
      current, mret, Js_ret.
    change (store (initial t0 st0 s0)) with st0.
    destruct (adRef (initial t0 st0 s0)) as [el |] eqn:Hr0; [| reflexivity].
    destruct (st0 !! ADSBYGOOGLE) as [q |] eqn:Hq; [| reflexivity].
    destruct Hcase as [Hq' | [Hs | Hc]]; [discriminate | |].
    - assert (Ha : hasAttribute STATUS_ATTR el = true).
      { pose proof (initial_status t0 st0 s0) as Hg.
        unfold getStatus in Hg. rewrite Hr0 in Hg. simpl in Hg.
        unfold hasAttribute. unfold getAttribute in Hg. rewrite Hg.
        destruct isAdSenseConfigured.
        - by destruct s0.
        - pose proof (proj2 (initial_slot false props t0 st0 s0) eq_refl) as Hn.
          rewrite Hn in Hr0. discriminate. }
      rewrite Ha. by rewrite andb_false_r.
    - apply (initial_slot isAdSenseConfigured props t0 st0 s0) in Hc. congruence. }
  revert Hm. unfold AdSense.mount. rewrite Hp. intros [= <-].
  set (v := monitor_effect false false (initial t0 st0 s0)) in *.
  assert (Hev : evolves (initial t0 st0 s0) (settle v)).
  { eapply evolves_trans; [apply monitor_effect_evolves | apply settle_evolves]. }
  destruct Hev as (_ & Hst & Hpu & Hco & _ & _).
  pose proof (run_evolves _ _ evs _ w Hr) as (_ & Hst' & Hpu' & _).
  split; [by rewrite Hpu', Hpu |]. split; [by rewrite Hst', Hst |].
  exact Hco.
Qed.

Lemma commit_add a b w : commit (a + b) w = commit b (commit a w).
Proof.
  revert w. induction a as [| a IH]; intros w.
  - change (0 + b)%nat with b. simpl. by case_bool_decide.
  - change (S a + b)%nat with (S (a + b)). simpl.
    case_bool_decide as Hs; [| apply IH].
    symmetry. by apply commit_stable_id.
Qed.

(** X14: the renders a state change sets off come to an end: from any
    state, three renders at most bring the component to a state whose
    flags are the ones last rendered, so that no further render is asked
    for, and allowing more renders changes nothing. *)
Theorem render_loop_ends (w : World) (extra : nat) :
  deps (settle w) = (adLoaded (settle w), adFailed (settle w)) ∧
  commit (3 + extra) w = settle w ∧
  rerender (settle w)
  = with_adRef (reconcile (view (settle w)) (adRef (settle w))) (settle w).
Proof.
  pose proof (settle_stable isAdSenseConfigured props w) as Hst.
  split; [exact Hst |]. split.
  - rewrite commit_add. by apply commit_stable_id.
  - unfold AdSense.rerender. simpl.
    by rewrite bool_decide_eq_true_2 by exact Hst.
Qed.

(** *** What the component watches *)

Lemma monitor_effect_observes l f w :
  isAdSenseConfigured = true → adRef w ≠ None →
  monitor (monitor_effect l f w) = Some (observer_of (next_timer (checkAdStatus w))).
Proof.
  intros Hcfg Hr. unfold AdSense.monitor_effect. rewrite Hcfg.
  rewrite (bool_decide_eq_false_2 _ Hr). simpl.
  rewrite checkAdStatus_adRef. by rewrite (bool_decide_eq_true_2 _ Hr).
Qed.

Lemma shown_has_slot w : reachable w → view w ≠ None → adRef w ≠ None.
Proof.
  intros Hre Hv Hr. apply Hv.
  destruct (reachable_mirrors w Hre) as (Hslot & _).
  pose proof (reachable_stable _ _ _ w Hre) as Hst. unfold stable in Hst.
  apply render_none_iff. apply Hslot in Hr. by rewrite Hst in Hr.
Qed.

Lemma slot_has_observer w :
  reachable w → adRef w ≠ None → ∃ id, monitor w = Some (observer_of id).
Proof.
  intros Hre Hr.
  destruct (reachable_mirrors w Hre) as (Hslot & Hmon & _).
  destruct (monitor w) as [[o fl id] |] eqn:Hm.
  - destruct (wf_monitor w (reachable_wf _ _ _ w Hre) _ Hm) as (Hfl & Ho & _).
    simpl in Hfl, Ho. subst. by exists id.
  - exfalso. apply Hr, Hslot, Hmon. reflexivity.
Qed.

Lemma status_change_checks w el cur :
  reachable w → adRef w = Some el →
  settle (notify STATUS_ATTR (with_adRef cur w))
  = settle (checkAdStatus (with_adRef cur w)).
Proof.
  intros Hre Hr.
  destruct (slot_has_observer w Hre) as [id Hm]; [by rewrite Hr |].
  f_equal. eapply notify_status; [| exact Hm].
  by eapply wf_same; [.. | exact (reachable_wf _ _ _ w Hre)].
Qed.

Lemma other_change_ignored w name cur :
  reachable w → name ≠ STATUS_ATTR →
  settle (notify name (with_adRef cur w)) = with_adRef cur w.
Proof.
  intros Hre Hn.
  rewrite notify_other;
    [| by eapply wf_same; [.. | exact (reachable_wf _ _ _ w Hre)] | exact Hn].
  apply commit_stable_id. exact (reachable_stable _ _ _ w Hre).
Qed.

(** C4: the monitoring effect, past its guard, connects an observer to
    the slot with the filter [['data-adsbygoogle-status']] and nothing
    else, and the observer stays connected for as long as the slot is
    shown.  A change of that attribute on the slot runs [checkAdStatus];
    a change of any other attribute changes nothing but the attribute.
    [checkAdStatus] marks the ad loaded exactly on the status ['done']
    and failed exactly on ['error'] and ['unfilled']; the content check
    goes by the iframe's height, the fallback by the flags its closure
    holds.  So writing ['done'] to the status of a shown slot marks the
    ad loaded, writing ['error'] or ['unfilled'] marks it failed and
    hides it, and writing anything else leaves both flags alone. *)
Theorem observes_one_attribute :
  (∀ l f w, isAdSenseConfigured = true → adRef w ≠ None →
     ∃ id, monitor (monitor_effect l f w)
           = Some {| observed := true;
                     attributeFilter := [STATUS_ATTR];
                     timeout := id |}) ∧
  (∀ l f w, isAdSenseConfigured = false ∨ adRef w = None →
     monitor (monitor_effect l f w) = None) ∧
  (∀ w, reachable w → view w ≠ None →
     ∃ el id, adRef w = Some el ∧
              monitor w = Some {| observed := true;
                                  attributeFilter := [STATUS_ATTR];
                                  timeout := id |}) ∧
  (∀ w el, reachable w → adRef w = Some el →
     (∀ v, step (SetAttribute STATUS_ATTR v) w
           = Some (settle (checkAdStatus
                             (with_adRef
                                (Some (setAttribute STATUS_ATTR v el)) w)))) ∧
     step (RemoveAttribute STATUS_ATTR) w
     = Some (settle (checkAdStatus
                       (with_adRef
                          (Some (removeAttribute STATUS_ATTR el)) w)))) ∧
  (∀ w el name, reachable w → adRef w = Some el → name ≠ STATUS_ATTR →
     (∀ v, step (SetAttribute name v) w
           = Some (with_adRef (Some (setAttribute name v el)) w)) ∧
     step (RemoveAttribute name) w
     = Some (with_adRef (Some (removeAttribute name el)) w)) ∧
  (∀ w, adLoaded (checkAdStatus w) = adLoaded w || status_is "done" w ∧
        adFailed (checkAdStatus w)
        = adFailed w || status_is "error" w || status_is "unfilled" w) ∧
  (∀ w, adLoaded (iframe_check w) = adLoaded w || has_content w ∧
        adFailed (iframe_check w) = adFailed w || negb (has_content w)) ∧
  (∀ l f w, adLoaded (fallback l f w) = adLoaded w ∧
            adFailed (fallback l f w) = adFailed w || negb l && negb f) ∧
  (∀ w el name, adRef w = Some el → name ≠ STATUS_ATTR →
     (∀ v, getStatus (with_adRef (Some (setAttribute name v el)) w)
           = getStatus w) ∧
     getStatus (with_adRef (Some (removeAttribute name el)) w) = getStatus w) ∧
  (∀ w e w', reachable w →
     (∃ name v, name ≠ STATUS_ATTR ∧ e = SetAttribute name v) ∨
     (∃ name, name ≠ STATUS_ATTR ∧ e = RemoveAttribute name) →
     step e w = Some w' →
     adLoaded w' = adLoaded w ∧ adFailed w' = adFailed w ∧
     timers w' = timers w ∧ monitor w' = monitor w ∧ view w' = view w) ∧
  (∀ w el v w', reachable w → adRef w = Some el →
     step (SetAttribute STATUS_ATTR v) w = Some w' →
     (v = "done" → adLoaded w' = true) ∧
     (v = "error" ∨ v = "unfilled" → adFailed w' = true ∧ view w' = None) ∧
     (v ≠ "done" → v ≠ "error" → v ≠ "unfilled" →
      adLoaded w' = adLoaded w ∧ adFailed w' = adFailed w)).
Proof.
  repeat apply conj.
  - intros l f w Hcfg Hr. eexists.
    exact (monitor_effect_observes l f w Hcfg Hr).
  - intros l f w Hg. unfold AdSense.monitor_effect.
    destruct Hg as [-> | ->]; [by rewrite orb_true_r |].
    by rewrite bool_decide_eq_true_2.
  - intros w Hre Hv. pose proof (shown_has_slot w Hre Hv) as Hr.
    destruct (slot_has_observer w Hre Hr) as [id Hm].
    destruct (adRef w) as [el |] eqn:Hel; [| done]. by exists el, id.
  - intros w el Hre Hr.
    split; [intros v |]; simpl; rewrite Hr; f_equal;
      by eapply status_change_checks.
  - intros w el name Hre Hr Hn.
    split; [intros v |]; simpl; rewrite Hr; f_equal;
      by apply other_change_ignored.
  - intros w. unfold status_is, checkAdStatus.
    destruct (getStatus w) as [s |]; simpl; [| by rewrite !orb_false_r].
    destruct (String.eqb_spec s "done") as [-> | Hd];
      [split; simpl; by rewrite ?orb_true_r, ?orb_false_r |].
    rewrite (bool_decide_eq_false_2 (Some s = Some "done")) by congruence.
    rewrite orb_false_r.
    destruct (String.eqb_spec s "error") as [-> | He];
      [split; simpl; by rewrite ?orb_true_r, ?orb_false_r |].
    rewrite (bool_decide_eq_false_2 (Some s = Some "error")) by congruence.
    rewrite orb_false_r.
    destruct (String.eqb_spec s "unfilled") as [-> | Hu];
      [split; simpl; by rewrite ?orb_true_r, ?orb_false_r |].
    rewrite (bool_decide_eq_false_2 (Some s = Some "unfilled")) by congruence.
    simpl. by rewrite orb_false_r.
  - intros w. unfold has_content, iframe_check.
    destruct (adRef w ≫= iframe) as [h |]; [destruct (0 <? h) |]; simpl;
      by rewrite ?orb_true_r, ?orb_false_r.
  - intros l f w. unfold fallback.
    destruct l, f; simpl; by rewrite ?orb_true_r, ?orb_false_r.
  - intros w el name Hr Hn. split; [intros v |].
    + rewrite getStatus_setAttribute_ne by exact Hn.
      unfold getStatus. by rewrite Hr.
    + rewrite getStatus_removeAttribute_ne by exact Hn.
      unfold getStatus. by rewrite Hr.
  - intros w e w' Hre He Hs.
    destruct He as [(name & v & Hn & ->) | (name & Hn & ->)];
      simpl in Hs; destruct (adRef w) as [el |]; simplify_eq; auto;
      by rewrite (other_change_ignored w name _ Hre Hn).
  - intros w el v w' Hre Hr Hs. revert Hs. simpl. rewrite Hr.
    rewrite (status_change_checks w el _ Hre Hr). intros [= <-].
    set (w1 := with_adRef (Some (setAttribute STATUS_ATTR v el)) w).
    assert (Hg : getStatus w1 = Some v).
    { unfold getStatus, getAttribute. simpl. by rewrite lookup_insert_eq. }
    split; [| split].
    + intros ->. apply settle_evolves.
      by rewrite (checkAdStatus_done w1 Hg).
    + intros Hv.
      assert (Hf : adFailed (settle (checkAdStatus w1)) = true).
      { apply settle_evolves. rewrite checkAdStatus_failed; [reflexivity |].
        rewrite Hg. destruct Hv as [-> | ->]; auto. }
      split; [exact Hf |]. unfold AdSense.view. rewrite Hf.
      apply render_failed.
    + intros Hd He Hu.
      rewrite checkAdStatus_other by (rewrite Hg; congruence).
      unfold AdSense.settle.
      by rewrite commit_stable_id by exact (reachable_stable _ _ _ w Hre).
Qed.

End MoreComponentFacts.

(** ** The further theorems at work on concrete pages *)

Lemma example_mounted :
  ∃ w0 el,
    mount true example_props None 0 example_store None = Some w0 ∧
    adLoaded w0 = false ∧ adFailed w0 = false ∧
    adRef w0 = Some el ∧ iframe el = None ∧
    timers w0 = [ {| tid := 0; due := 5000; kind := Fallback false false |} ].
Proof.
  eexists _, _. split; [vm_compute; reflexivity |].
  vm_compute. by repeat split.
Qed.

Lemma example_showing :
  ∃ w0 w w',
    mount true example_props None 0 example_store (Some "done") = Some w0 ∧
    step true example_props (SetIframe (Some 90)) w0 = Some w ∧
    AdSenseState.showing w ∧
    run true example_props [Wait 500; Fire; Fire; Wait 4500; Fire; Rerender] w
    = Some w'.
Proof.
  eexists _, _, _. split; [vm_compute; reflexivity |].
  split; [vm_compute; reflexivity |].
  split; [| vm_compute; reflexivity].
  split; [reflexivity |]. split; [reflexivity |].
  exists 90. by vm_compute.
Qed.

Lemma example_run_past :
  ∃ w0 w,
    mount true example_props None 0 example_store None = Some w0 ∧
    run true example_props [Wait 5000; Fire; Wait 1] w0 = Some w ∧
    now w = 5001.
Proof.
  eexists _, _. split; [vm_compute; reflexivity |].
  split; [vm_compute; reflexivity |]. reflexivity.
Qed.

Lemma reachable_mounted cfg p sp t0 st0 s0 w0 :
  mount cfg p sp t0 st0 s0 = Some w0 → reachable cfg p sp w0.
Proof. intros Hm. exists t0, st0, s0, w0, []. split; [exact Hm | reflexivity]. Qed.

Lemma fallback_closure_is_current_witness :
  ∃ w0 t,
    mount true example_props None 0 example_store None = Some w0 ∧
    t ∈ timers w0 ∧ kind t = Fallback false false ∧
    adLoaded w0 = false ∧ adFailed w0 = false.
Proof.
  destruct example_mounted as (w0 & el & Hm & _ & _ & _ & _ & Ht).
  exists w0, {| tid := 0; due := 5000; kind := Fallback false false |}.
  assert (Hin : {| tid := 0; due := 5000; kind := Fallback false false |}
                  ∈ timers w0)
    by (rewrite Ht; by apply list_elem_of_singleton).
  pose proof (reachable_mounted _ _ _ _ _ _ _ Hm) as Hre.
  destruct (fallback_closure_is_current true example_props None w0 _ false false
              Hre Hin eq_refl) as (Hl & Hf & _).
  split; [exact Hm |]. split; [exact Hin |]. split; [reflexivity |].
  split; [by rewrite <- Hl | by rewrite <- Hf].
Defined.

Lemma slot_and_observer_follow_render_witness :
  ∃ w0,
    mount true example_props None 0 example_store None = Some w0 ∧
    (adRef w0 = None ↔ view true example_props w0 = None) ∧
    (monitor w0 = None ↔ view true example_props w0 = None).
Proof.
  destruct example_mounted as (w0 & el & Hm & _).
  exists w0. split; [exact Hm |].
  pose proof (reachable_mounted _ _ _ _ _ _ _ Hm) as Hre.
  destruct (slot_and_observer_follow_render true example_props None w0 Hre)
    as (Ha & Hb & _).
  split; [exact Ha | exact Hb].
Defined.

Lemma loaded_ad_stays_shown_witness :
  ∃ w0 w w',
    mount true example_props None 0 example_store (Some "done") = Some w0 ∧
    step true example_props (SetIframe (Some 90)) w0 = Some w ∧
    run true example_props [Wait 500; Fire; Fire; Wait 4500; Fire; Rerender] w
    = Some w' ∧
    view true example_props w' = Some (ad_container example_props true false).
Proof.
  destruct example_showing as (w0 & w & w' & Hm & Hs & Hsh & Hr).
  exists w0, w, w'. split; [exact Hm |]. split; [exact Hs |].
  split; [exact Hr |].
  assert (Hre : reachable true example_props None w).
  { eapply reachable_step; [| exact Hs].
    exact (reachable_mounted _ _ _ _ _ _ _ Hm). }
  eapply (loaded_ad_stays_shown true example_props None w w' _ Hre Hsh);
    [| exact Hr].
  by repeat constructor.
Defined.

Lemma done_queues_two_checks_witness :
  ∃ w0 w',
    mount true example_props None 0 example_store None = Some w0 ∧
    step true example_props (SetAttribute STATUS_ATTR "done") w0 = Some w' ∧
    kind <$> timers w' = [IframeCheck; IframeCheck; Fallback true false].
Proof.
  destruct example_mounted as (w0 & el & Hm & Hl & Hf & _).
  pose proof (reachable_mounted _ _ _ _ _ _ _ Hm) as Hre.
  destruct (done_queues_two_checks true example_props None w0 eq_refl Hre Hl Hf)
    as (w' & Hs & _ & _ & Hk & _).
  exists w0, w'. split; [exact Hm |]. split; [exact Hs | exact Hk].
Defined.

Lemma done_without_content_hides_witness :
  ∃ w0 w',
    mount true example_props None 0 example_store None = Some w0 ∧
    run true example_props [SetAttribute STATUS_ATTR "done"; Wait 500; Fire] w0
    = Some w' ∧
    adFailed w' = true ∧ view true example_props w' = None.
Proof.
  destruct example_mounted as (w0 & el & Hm & Hl & Hf & Hr & Hi & _).
  pose proof (reachable_mounted _ _ _ _ _ _ _ Hm) as Hre.
  destruct (done_without_content_hides true example_props None w0 eq_refl Hre
              Hl Hf) as (w' & Hrun & _ & Hf' & Hv).
  { intros h. rewrite Hr. simpl. rewrite Hi. discriminate. }
  exists w0, w'. split; [exact Hm |]. split; [exact Hrun |].
  split; [exact Hf' | exact Hv].
Defined.


Lemma never_loaded_without_done_witness :
  ∃ w0 w,
    mount true example_props None 0 example_store None = Some w0 ∧
    run true example_props [Wait 5000; Fire; Wait 1] w0 = Some w ∧
    adLoaded w = false ∧ adFailed w = true.
Proof.
  destruct example_run_past as (w0 & w & Hm & Hr & Hn).
  exists w0, w. split; [exact Hm |]. split; [exact Hr |].
  destruct (never_loaded_without_done true example_props None 0 example_store
              None w0 w [Wait 5000; Fire; Wait 1] Hm) as (Hl & Hlate);
    [discriminate | by repeat constructor | exact Hr |].
  split; [exact Hl |]. apply Hlate; [reflexivity | lia].
Defined.

Lemma no_queue_no_push_witness :
  ∃ w0,
    mount true example_props None 0 ∅ None = Some w0 ∧
    pushes w0 = O ∧ store w0 = ∅.
Proof.
  destruct (mount_total true example_props None 0 ∅ None) as (w1 & _ & Hm).
  eexists. split; [exact Hm |].
  destruct (no_queue_no_push true example_props None 0 ∅ None _ _ []
              (or_introl (lookup_empty _)) Hm eq_refl) as (Hp & Hs & _).
  by split.
Defined.

Lemma unconfigured_never_monitors_witness :
  ∃ w0,
    mount false example_props None 0 example_store None = Some w0 ∧
    AdSense.idle w0 ∧ view false example_props w0 = None.
Proof.
  destruct (mount_total false example_props None 0 example_store None)
    as (w1 & _ & Hm).
  eexists. split; [exact Hm |].
  exact (unconfigured_never_monitors false example_props None eq_refl 0
           example_store None _ [] _ Hm eq_refl).
Defined.

Lemma observes_one_attribute_witness :
  ∃ w0 el id w,
    mount true example_props None 0 example_store None = Some w0 ∧
    adRef w0 = Some el ∧
    monitor w0 = Some {| observed := true;
                         attributeFilter := [STATUS_ATTR];
                         timeout := id |} ∧
    step true example_props (SetAttribute STATUS_ATTR "done") w0 = Some w ∧
    adLoaded w = true.
Proof.
  destruct example_mounted as (w0 & el & Hm & Hl & Hf & Hr & _).
  pose proof (reachable_mounted _ _ _ _ _ _ _ Hm) as Hre.
  destruct (observes_one_attribute true example_props None)
    as (_ & _ & Hobs & Hrun & _ & _ & _ & _ & _ & _ & Hend).
  destruct (Hobs w0 Hre) as (el' & id & Hr' & Hmon).
  { unfold view. rewrite Hl, Hf. discriminate. }
  destruct (Hrun w0 el Hre Hr) as (Hset & _).
  eexists w0, el, id, _. split; [exact Hm |]. split; [exact Hr |].
  split; [exact Hmon |]. split; [exact (Hset "done") |].
  destruct (Hend w0 el "done" _ Hre Hr (Hset "done")) as (Hdone & _).
  by apply Hdone.
Defined.
